(** * Terminal server: session lifecycle core (server.js)

    Shallow embedding of the session registry, the container counter and the
    HTTP handlers of the terminal server that create, use and tear down
    per-user container sessions.

    Execution model.  Node runs each request handler synchronously up to its
    first [await]; the rest of the handler runs later, interleaved with other
    requests.  A request is therefore split into a synchronous part
    ([begin_request]), which may leave pending continuations ([Task]), and
    the resumption of each continuation ([resolve]), which receives the
    answers of the Docker daemon ([Env]).  [step] interleaves both freely;
    [run_request] resolves the continuations of one request immediately,
    which is a request served while no other one is in flight. *)

From Stdlib Require Import ZArith String List Bool.
From stdpp Require Import base gmap strings list pretty.

Set Warnings "-register-all".
Open Scope Z_scope.

(** ** JSON responses *)

Inductive JVal :=
| JStr (s : string)
| JNum (z : Z)
| JBool (b : bool)
| JNull
| JObj (fields : list (string * JVal))
| JArr (items : list JVal).

Record Response := mkResponse { status : Z; body : JVal }.

Definition json (fs : list (string * JVal)) : Response := mkResponse 200 (JObj fs).
Definition json_status (code : Z) (fs : list (string * JVal)) : Response :=
  mkResponse code (JObj fs).
Definition json_error (code : Z) (msg : string) : Response :=
  json_status code [("error", JStr msg)].

(** [new Date(t).toISOString()]: the millisecond timestamp, rendered in
    decimal (the calendar format plays no role in the properties below). *)
Definition toISOString (t : Z) : string := pretty t.

(** ** JavaScript string helpers *)

Fixpoint starts_with (p s : string) : bool :=
  match p, s with
  | EmptyString, _ => true
  | String a p', String b s' => Ascii.eqb a b && starts_with p' s'
  | _, _ => false
  end.

(** [s.includes(sub)] *)
Fixpoint includes (s sub : string) : bool :=
  starts_with sub s ||
  match s with
  | EmptyString => false
  | String _ s' => includes s' sub
  end.

(** [x || d] on a string that may be [undefined]: the empty string is falsy. *)
Definition js_or_str (x : option string) (d : string) : string :=
  match x with
  | Some s => if String.eqb s "" then d else s
  | None => d
  end.

(** [!x] on a string field of the request body. *)
Definition js_falsy (x : option string) : bool :=
  match x with
  | Some s => String.eqb s ""
  | None => true
  end.

Definition docker_sock_enoent : string := "connect ENOENT /var/run/docker.sock".

(** ** Data model *)

(** Environment configuration ([parseInt] of the environment variables). *)
Record Config := mkConfig { MAX_CONTAINERS : Z; SESSION_TIMEOUT : Z }.

(** [req.webSession], set by [validateWebSession], as the session routes read
    it: [username] is a login's user name, or [undefined] ([None]) on an
    object reached through the prototype chain; [isAdmin] is its truthiness
    ([undefined] is falsy). *)
Record WebSession := mkWebSession { username : option string; isAdmin : bool }.

(** [a === b] on two values that are strings or [undefined]. *)
Definition js_str_eqb (a b : option string) : bool :=
  match a, b with
  | Some x, Some y => String.eqb x y
  | None, None => true
  | _, _ => false
  end.

(** Entry of [session.logs] (the web handler's [logEntry]). *)
Record LogEntry := mkLogEntry {
  log_timestamp : Z;
  log_userId : string;
  log_sessionId : string;
  log_clientIp : string;
  log_command : string;
  log_webUser : option string }.

(** A value of [sessions[id]].  Fields that some creation paths leave
    [undefined] are options; [isMock] is [undefined] (falsy) on real sessions. *)
Record Session := mkSession {
  userId : string;
  clientIp : string;
  containerId : string;
  created : Z;
  lastAccessed : Z;
  webUser : option string;
  sessionName : option string;
  isMock : bool;
  commandCount : option Z;
  logs : option (list LogEntry) }.

(** The module-level mutable state: [sessions] and [containerCount].
    [sessions[id]] is read as a lookup of the id among the table's own
    keys.  That is JavaScript's lookup for every id outside
    [inheritable_names]; an id among them can also find a value through
    [Object.prototype] (the session ids the server hands out are [uuidv4()]
    strings, never such names), and the terminal routes are modelled for
    the other ids only. *)
Record Server := mkServer {
  sessions : gmap string Session;
  containerCount : Z }.

Definition init_server : Server := mkServer ∅ 0.

Definition set_lastAccessed (t : Z) (s : Session) : Session :=
  mkSession (userId s) (clientIp s) (containerId s) (created s) t (webUser s)
    (sessionName s) (isMock s) (commandCount s) (logs s).

Definition set_isMock (s : Session) : Session :=
  mkSession (userId s) (clientIp s) (containerId s) (created s) (lastAccessed s)
    (webUser s) (sessionName s) true (commandCount s) (logs s).

Definition set_activity (t : Z) (n : Z) (l : list LogEntry) (s : Session) : Session :=
  mkSession (userId s) (clientIp s) (containerId s) (created s) t (webUser s)
    (sessionName s) (isMock s) (Some n) (Some l).

(** Mutating the object stored at [sessions[id]] in place: no effect when
    the id is no longer in the table. *)
Definition update_session (f : Session -> Session) (sid : string) (st : Server) : Server :=
  match sessions st !! sid with
  | Some s => mkServer (<[sid := f s]> (sessions st)) (containerCount st)
  | None => st
  end.

Definition nl : string := String (Ascii.ascii_of_nat 10) EmptyString.

(** ** Answers of the Docker daemon *)

Inductive Outcome (A : Type) := Ok (a : A) | Err (message : string).
Arguments Ok {A} _.
Arguments Err {A} _.

(** Outcome of running a command in a container: [container.exec] or
    [exec.start] rejects; the stream emits ['error']; the stream ends and
    [exec.inspect] gives the exit code; [exec.inspect] rejects. *)
Inductive ExecOutcome :=
| ExecThrow (message : string)
| ExecStreamError (message : string)
| ExecDone (output : string) (exitCode : Z)
| ExecInspectFail.

(** The answers a resumed continuation receives: the time, the result of
    [docker.createContainer] followed by [container.start] (container id or
    the error's message), the result of [container.stop] followed by
    [container.remove] for the container of each session, and the result of
    a command execution. *)
Record Env := mkEnv {
  env_now : Z;
  env_create : Outcome string;
  env_cleanup : string -> Outcome unit;
  env_exec : ExecOutcome }.

(** ** Pending continuations and requests *)

Inductive Task :=
| TCreateWeb (ws : WebSession) (sid uid mockId ip name : string)
| TCreateLegacy (sid uid ip : string)
| TExecLegacyCreate (sid uid ip : string)
| TCleanup (sid : string)
| TExecWeb (sid cmd : string)
| TMockReply (sid cmd : string) (s : Session)
| TExecPlain.

(** The routes that read or write [sessions] or [containerCount], with the
    request data they use (values generated by [uuidv4()] are arguments),
    and the periodic sweep of [setInterval]. *)
Inductive Request :=
| ApiCreateSession (ws : WebSession) (sid uuid mockUuid ip : string) (name : option string)
| CreateSession (sid : string) (bodyUserId : option string) (uuid ip : string)
| ApiExecuteCommand (ws : WebSession) (command sessionId : option string)
| ApiGetSession (ws : WebSession) (sid : string)
| ApiListSessions (ws : WebSession)
| ApiDeleteSession (ws : WebSession) (sid : string)
| ExecuteCommand (hdr command : option string)
| GetSession (hdr : option string)
| DeleteSession (hdr : option string)
| ExecuteCommandLegacy (deviceId : string) (command : option string) (sid ip : string)
| ReaperTick.

(** ** Shared pieces of the handlers *)

Definition capacity_exceeded : Response :=
  json_error 503 "Maximum number of active sessions reached. Please try again later.".

(** [if (containerCount >= MAX_CONTAINERS) return res.status(503)...] *)
Definition create_check (cfg : Config) (st : Server) : option Response :=
  if MAX_CONTAINERS cfg <=? containerCount st then Some capacity_exceeded else None.

(** [Date.now() - session.lastAccessed > SESSION_TIMEOUT] *)
Definition is_expired (cfg : Config) (now : Z) (s : Session) : bool :=
  SESSION_TIMEOUT cfg <? now - lastAccessed s.

(** [session.webUser !== req.webSession.username && !req.webSession.isAdmin] *)
Definition forbidden (ws : WebSession) (s : Session) : bool :=
  negb (js_str_eqb (webUser s) (username ws)) && negb (isAdmin ws).

(** [cleanupSession(sessionId)] up to its first [await]: it returns at once
    when the id is unknown, otherwise it goes on with stop and remove. *)
Definition cleanup_spawn (st : Server) (sid : string) : list Task :=
  match sessions st !! sid with
  | Some _ => [TCleanup sid]
  | None => []
  end.

(** [cleanupSession] after [await container.stop(); await container.remove()]:
    [containerCount--; delete sessions[sessionId]] when both succeed; an error
    is caught and logged, and nothing changes. *)
Definition cleanup_finish (r : Outcome unit) (sid : string) (st : Server) : Server :=
  match r with
  | Ok _ => mkServer (delete sid (sessions st)) (containerCount st - 1)
  | Err _ => st
  end.

(** [session.logs.unshift(logEntry); if (session.logs.length > 10) session.logs.pop();] *)
Definition push_log (e : LogEntry) (l : list LogEntry) : list LogEntry :=
  let l' := e :: l in
  if Nat.ltb 10 (length l') then removelast l' else l'.

(** ** [POST /api/create-session] after the [await]s of container creation *)

Definition api_create_finish (cfg : Config) (now : Z) (ws : WebSession)
    (sid uid mockId ip name : string) (r : Outcome string) (st : Server)
    : Response * Server :=
  match r with
  | Ok cid =>
      (json [("sessionId", JStr sid); ("userId", JStr uid); ("sessionName", JStr name);
             ("message", JStr "Session created successfully");
             ("expiresIn", JNum (SESSION_TIMEOUT cfg))],
       mkServer
         (<[sid := mkSession uid ip cid now now (username ws) (Some name)
                     false (Some 0) (Some [])]> (sessions st))
         (containerCount st + 1))
  | Err msg =>
      if includes msg docker_sock_enoent then
        (json [("sessionId", JStr sid); ("userId", JStr uid); ("sessionName", JStr name);
               ("message", JStr "Session created in mock mode (Docker unavailable)");
               ("expiresIn", JNum (SESSION_TIMEOUT cfg)); ("isMock", JBool true)],
         mkServer
           (<[sid := mkSession uid ip mockId now now (username ws) (Some name)
                       true (Some 0) (Some [])]> (sessions st))
           (containerCount st + 1))
      else (json_error 500 ("Failed to create session: " ++ msg)%string, st)
  end.

(** ** [POST /create-session] (API-key route) after the [await]s *)

Definition legacy_create_finish (cfg : Config) (now : Z) (sid uid ip : string)
    (r : Outcome string) (st : Server) : Response * Server :=
  match r with
  | Ok cid =>
      (json [("sessionId", JStr sid); ("userId", JStr uid);
             ("message", JStr "Session created successfully");
             ("expiresIn", JNum (SESSION_TIMEOUT cfg))],
       mkServer
         (<[sid := mkSession uid ip cid now now None None false None None]> (sessions st))
         (containerCount st + 1))
  | Err msg => (json_error 500 ("Failed to create session: " ++ msg)%string, st)
  end.

(** Response of the API-key routes once the command has run in the container
    (these continuations change no server state). *)
Definition plain_exec_response (r : ExecOutcome) : Response :=
  match r with
  | ExecThrow msg => json_error 500 ("Failed to execute command: " ++ msg)%string
  | ExecStreamError msg => json_error 500 msg
  | ExecDone out code =>
      if code =? 0 then json [("output", JStr out)]
      else json_status 400 [("error", JStr (js_or_str (Some out) "Command failed"));
                            ("exitCode", JNum code)]
  | ExecInspectFail => json_error 500 "Failed to get command status"
  end.

(** [POST /execute-command-legacy] when it had to create the session: after
    the [await]s of container creation it stores the session, sets
    [lastAccessed], and runs the command. *)
Definition legacy_exec_create_finish (now : Z) (sid uid ip : string)
    (r : Outcome string) (x : ExecOutcome) (st : Server) : Response * Server :=
  match r with
  | Ok cid =>
      let st1 := mkServer
                   (<[sid := mkSession uid ip cid now now None None false None None]>
                      (sessions st))
                   (containerCount st + 1) in
      (plain_exec_response x, update_session (set_lastAccessed now) sid st1)
  | Err _ => (json_error 500 "Failed to create session", st)
  end.

(** ** [POST /api/execute-command] *)

Definition mock_output (now : Z) (sid cmd : string) (s : Session) : string :=
  ("Executing in mock environment: " ++ cmd ++ nl ++
   "Mock output for demonstration purposes" ++ nl ++
   "Current time: " ++ toISOString now ++ nl ++
   "Session ID: " ++ sid ++ nl ++
   "User: " ++ userId s ++ nl)%string.

Definition invalid_session : Response := json_error 401 "Invalid or expired session".

(** [session.lastAccessed = Date.now()], [session.commandCount =
    (session.commandCount || 0) + 1], and the new [logEntry] pushed on
    [session.logs] ([if (!session.logs) session.logs = []] first). *)
Definition record_command (now : Z) (ws : WebSession) (sid cmd : string) (s : Session)
    : Session :=
  let entry := mkLogEntry now (userId s) sid (clientIp s) cmd (username ws) in
  set_activity now (default 0 (commandCount s) + 1) (push_log entry (default [] (logs s))) s.

(** The synchronous part of the handler, up to [await container.exec(...)].
    The audit write [fs.appendFileSync] is taken to succeed.  The response of
    a mock session is sent by a [setTimeout(..., 200)] callback that changes
    no server state: it is left pending as [TMockReply]. *)
Definition api_execute_begin (cfg : Config) (now : Z) (ws : WebSession)
    (command sessionId : option string) (st : Server)
    : option Response * Server * list Task :=
  if js_falsy command then (Some (json_error 400 "Command is required"), st, []) else
  let cmd := default "" command in
  if js_falsy sessionId then (Some invalid_session, st, []) else
  let sid := default "" sessionId in
  match sessions st !! sid with
  | None => (Some invalid_session, st, [])
  | Some s =>
      if is_expired cfg now s then
        (Some (json_error 401 "Session expired"), st, cleanup_spawn st sid)
      else if forbidden ws s then
        (Some (json_error 403 "You can only execute commands in your own sessions"), st, [])
      else
        let st' := mkServer (<[sid := record_command now ws sid cmd s]> (sessions st))
                     (containerCount st) in
        if isMock s then (None, st', [TMockReply sid cmd s])
        else (None, st', [TExecWeb sid cmd])
  end.

(** After [await container.exec(...)]: on a Docker-socket error the captured
    session object gets [isMock = true]. *)
Definition api_exec_finish (sid cmd : string) (r : ExecOutcome) (st : Server)
    : Response * Server :=
  match r with
  | ExecThrow msg =>
      if includes msg docker_sock_enoent then
        (json [("output", JStr ("Switched to mock mode (Docker unavailable)." ++ nl ++
                                "Mock output for: " ++ cmd ++ nl)%string);
               ("exitCode", JNum 0); ("isMock", JBool true); ("switched", JBool true)],
         update_session set_isMock sid st)
      else (json_error 500 ("Failed to execute command: " ++ msg)%string, st)
  | ExecStreamError msg => (json_error 500 msg, st)
  | ExecDone out code =>
      if code =? 0 then (json [("output", JStr out); ("exitCode", JNum 0)], st)
      else (json [("output", JStr out); ("exitCode", JNum code); ("error", JBool true)], st)
  | ExecInspectFail => (json_error 500 "Failed to get command status", st)
  end.

(** ** Read-only views *)

(** [GET /api/session/:id] *)
Definition api_get_session (cfg : Config) (now : Z) (ws : WebSession) (sid : string)
    (st : Server) : Response :=
  match sessions st !! sid with
  | None => json_error 404 "Session not found"
  | Some s =>
      if forbidden ws s then json_error 403 "You can only view your own sessions"
      else json [("id", JStr sid); ("userId", JStr (userId s));
                 ("created", JStr (toISOString (created s)));
                 ("lastAccessed", JStr (toISOString (lastAccessed s)));
                 ("expiresIn", JNum (SESSION_TIMEOUT cfg - (now - lastAccessed s)))]
  end.

Definition admin_view (cfg : Config) (now : Z) (kv : string * Session) : JVal :=
  let '(sid, s) := kv in
  JObj [("id", JStr sid); ("userId", JStr (userId s));
        ("webUser", JStr (js_or_str (webUser s) "API User"));
        ("created", JStr (toISOString (created s)));
        ("lastAccessed", JStr (toISOString (lastAccessed s)));
        ("expiresIn", JNum (SESSION_TIMEOUT cfg - (now - lastAccessed s)));
        ("clientIp", JStr (clientIp s)); ("containerId", JStr (containerId s));
        ("isActive", JBool true);
        ("idleTime", JNum ((now - lastAccessed s) / 1000))].

Definition user_view (cfg : Config) (now : Z) (kv : string * Session) : JVal :=
  let '(sid, s) := kv in
  JObj [("id", JStr sid); ("userId", JStr (userId s));
        ("created", JStr (toISOString (created s)));
        ("lastAccessed", JStr (toISOString (lastAccessed s)));
        ("expiresIn", JNum (SESSION_TIMEOUT cfg - (now - lastAccessed s)))].

(** [session.webUser === req.webSession.username] *)
Definition owned_by (ws : WebSession) (s : Session) : bool :=
  js_str_eqb (webUser s) (username ws).

(** [GET /api/sessions] ([Object.entries] order is taken to be the map's). *)
Definition api_list_sessions (cfg : Config) (now : Z) (ws : WebSession) (st : Server)
    : Response :=
  if isAdmin ws then
    mkResponse 200 (JArr (map (admin_view cfg now) (map_to_list (sessions st))))
  else
    mkResponse 200 (JArr (map (user_view cfg now)
                            (List.filter (fun kv => owned_by ws kv.2)
                               (map_to_list (sessions st))))).

(** ** [validateSession] middleware of the API-key routes *)

Definition validate_session (cfg : Config) (now : Z) (hdr : option string) (st : Server)
    : (Response + string) * Server * list Task :=
  if js_falsy hdr then (inl invalid_session, st, []) else
  let sid := default "" hdr in
  match sessions st !! sid with
  | None => (inl invalid_session, st, [])
  | Some s =>
      if is_expired cfg now s then
        (inl (json_error 401 "Session expired"), st, cleanup_spawn st sid)
      else (inr sid, update_session (set_lastAccessed now) sid st, [])
  end.

(** ** Periodic sweep: [cleanupSession] for every expired session *)

Definition reaper_tasks (cfg : Config) (now : Z) (st : Server) : list Task :=
  map (fun kv => TCleanup kv.1)
      (List.filter (fun kv => is_expired cfg now kv.2) (map_to_list (sessions st))).

(** The loop of [POST /execute-command-legacy] looking for the device's
    session ([Object.entries] order is taken to be the map's). *)
Definition find_by_userId (dev : string) (st : Server) : option string :=
  fst <$> List.find (fun kv => String.eqb (userId kv.2) dev) (map_to_list (sessions st)).

Definition terminated : Response := json [("message", JStr "Session terminated successfully")].

(** ** The synchronous part of every request *)

Definition begin_request (cfg : Config) (now : Z) (req : Request) (st : Server)
    : option Response * Server * list Task :=
  match req with
  | ApiCreateSession ws sid uuid mockUuid ip name =>
      match create_check cfg st with
      | Some r => (Some r, st, [])
      | None =>
          (None, st,
           [TCreateWeb ws sid (js_or_str (username ws) uuid)
              ("mock-container-" ++ mockUuid)%string ip
              (js_or_str name ("Session-" ++ substring 0 8 sid)%string)])
      end
  | CreateSession sid bodyUserId uuid ip =>
      match create_check cfg st with
      | Some r => (Some r, st, [])
      | None => (None, st, [TCreateLegacy sid (js_or_str bodyUserId uuid) ip])
      end
  | ApiExecuteCommand ws command sessionId =>
      api_execute_begin cfg now ws command sessionId st
  | ApiGetSession ws sid => (Some (api_get_session cfg now ws sid st), st, [])
  | ApiListSessions ws => (Some (api_list_sessions cfg now ws st), st, [])
  | ApiDeleteSession ws sid =>
      match sessions st !! sid with
      | None => (Some (json_error 404 "Session not found"), st, [])
      | Some s =>
          if forbidden ws s then
            (Some (json_error 403 "You can only terminate your own sessions"), st, [])
          else (Some terminated, st, cleanup_spawn st sid)
      end
  | ExecuteCommand hdr command =>
      match validate_session cfg now hdr st with
      | (inl r, st', ts) => (Some r, st', ts)
      | (inr _, st', _) =>
          if js_falsy command then (Some (json_error 400 "Command is required"), st', [])
          else (None, st', [TExecPlain])
      end
  | GetSession hdr =>
      match validate_session cfg now hdr st with
      | (inl r, st', ts) => (Some r, st', ts)
      | (inr sid, st', _) =>
          match sessions st' !! sid with
          | Some s =>
              (Some (json [("userId", JStr (userId s));
                           ("created", JStr (toISOString (created s)));
                           ("lastAccessed", JStr (toISOString (lastAccessed s)));
                           ("expiresIn", JNum (SESSION_TIMEOUT cfg - (now - lastAccessed s)))]),
               st', [])
          | None => (Some invalid_session, st', [])
          end
      end
  | DeleteSession hdr =>
      match validate_session cfg now hdr st with
      | (inl r, st', ts) => (Some r, st', ts)
      | (inr sid, st', _) => (Some terminated, st', cleanup_spawn st' sid)
      end
  | ExecuteCommandLegacy deviceId command sid ip =>
      if js_falsy command then (Some (json_error 400 "Command is required"), st, []) else
      match find_by_userId deviceId st with
      | Some fid => (None, update_session (set_lastAccessed now) fid st, [TExecPlain])
      | None =>
          match create_check cfg st with
          | Some r => (Some r, st, [])
          | None => (None, st, [TExecLegacyCreate sid deviceId ip])
          end
      end
  | ReaperTick => (None, st, reaper_tasks cfg now st)
  end.

(** ** Resuming a pending continuation *)

Definition resolve (cfg : Config) (env : Env) (t : Task) (st : Server)
    : option Response * Server :=
  match t with
  | TCreateWeb ws sid uid mockId ip name =>
      let '(r, st') := api_create_finish cfg (env_now env) ws sid uid mockId ip name
                         (env_create env) st in (Some r, st')
  | TCreateLegacy sid uid ip =>
      let '(r, st') := legacy_create_finish cfg (env_now env) sid uid ip
                         (env_create env) st in (Some r, st')
  | TExecLegacyCreate sid uid ip =>
      let '(r, st') := legacy_exec_create_finish (env_now env) sid uid ip
                         (env_create env) (env_exec env) st in (Some r, st')
  | TCleanup sid => (None, cleanup_finish (env_cleanup env sid) sid st)
  | TExecWeb sid cmd =>
      let '(r, st') := api_exec_finish sid cmd (env_exec env) st in (Some r, st')
  | TExecPlain => (Some (plain_exec_response (env_exec env)), st)
  | TMockReply sid cmd s =>
      (Some (json [("output", JStr (mock_output (env_now env) sid cmd s)); ("exitCode", JNum 0);
                   ("isMock", JBool true)]), st)
  end.

(** The session id a continuation stores (a fresh [uuidv4()]). *)
Definition task_inserts (t : Task) : option string :=
  match t with
  | TCreateWeb _ sid _ _ _ _ | TCreateLegacy sid _ _ | TExecLegacyCreate sid _ _ => Some sid
  | _ => None
  end.

(** ** Interleaved execution of requests *)

Record World := mkWorld { srv : Server; pending : list Task }.

Definition init_world : World := mkWorld init_server [].

(** A request runs its synchronous part, or any pending continuation resumes.
    [uuidv4()] does not collide: a continuation never stores a session under
    an id already in the table. *)
Inductive step (cfg : Config) : World -> World -> Prop :=
| step_request now req w r st' ts :
    begin_request cfg now req (srv w) = (r, st', ts) ->
    step cfg w (mkWorld st' (ts ++ pending w))
| step_resume env t pre post w r st' :
    pending w = pre ++ t :: post ->
    (forall sid, task_inserts t = Some sid -> sessions (srv w) !! sid = None) ->
    resolve cfg env t (srv w) = (r, st') ->
    step cfg w (mkWorld st' (pre ++ post)).

Definition reach (cfg : Config) : World -> World -> Prop := rtc (step cfg).

(** ** Requests served one at a time *)

Fixpoint resolve_all (cfg : Config) (env : Env) (ts : list Task) (st : Server)
    : option Response * Server :=
  match ts with
  | [] => (None, st)
  | t :: ts' =>
      let '(r1, st1) := resolve cfg env t st in
      let '(r2, st2) := resolve_all cfg env ts' st1 in
      (match r1 with Some _ => r1 | None => r2 end, st2)
  end.

Definition run_request (cfg : Config) (now : Z) (env : Env) (req : Request) (st : Server)
    : option Response * Server :=
  let '(r0, st1, ts) := begin_request cfg now req st in
  let '(r1, st2) := resolve_all cfg env ts st1 in
  (match r0 with Some _ => r0 | None => r1 end, st2).

Definition cleanup_ok (r : Outcome unit) : bool :=
  match r with Ok _ => true | Err _ => false end.

(** [key] is a field of the JSON object [v]. *)
Definition has_field (key : string) (v : JVal) : bool :=
  match v with
  | JObj fs => existsb (fun kv => String.eqb kv.1 key) fs
  | _ => false
  end.

(** ** Web UI accounts: [users], [webSessions] and their routes *)

(** A value of [users[name]]. *)
Record User := mkUser { u_username : string; passwordHash : string; u_isAdmin : bool }.

(** A value of [webSessions[token]]. *)
Record WebLogin := mkWebLogin {
  wl_username : string;
  wl_isAdmin : bool;
  wl_created : Z;
  wl_lastAccessed : Z }.

(** The two plain objects [users] and [webSessions], and the value last
    written to [Object.prototype.lastAccessed] ([None] while it has never
    been written; see [validate_web_session]).  The terminal routes could
    write there too, and also [commandCount], [logs] and [isMock], but only
    through the session id ["__proto__"], for which they are not modelled
    (see [Server]). *)
Record Auth := mkAuth {
  users : gmap string User;
  webSessions : gmap string WebLogin;
  proto_lastAccessed : option Z }.

(** [users] holds the default [admin] account at start-up. *)
Definition init_auth : Auth :=
  mkAuth {[ "admin" := mkUser "admin" "f865b53623b121fd34ee5426c792e5c33af8c227" true ]} ∅ None.

(** The properties every plain object inherits from [Object.prototype]. *)
Definition proto_keys : list string :=
  ["constructor"; "__proto__"; "hasOwnProperty"; "isPrototypeOf"; "propertyIsEnumerable";
   "toLocaleString"; "toString"; "valueOf"; "__defineGetter__"; "__defineSetter__";
   "__lookupGetter__"; "__lookupSetter__"].

(** The keys under which a lookup on a plain object can find an inherited
    value: the properties of [Object.prototype], and the fields the handlers
    write on the object found at [webSessions[token]] or [sessions[id]],
    which is [Object.prototype] itself for the key ["__proto__"]. *)
Definition inheritable_names : list string :=
  proto_keys ++ ["lastAccessed"; "commandCount"; "logs"; "isMock"].

(** [obj[k]] on a plain object: an own property, a truthy inherited one (a
    function, [Object.prototype] itself, or a non-zero number written to
    [Object.prototype.lastAccessed]: none has a [passwordHash] or a
    [created]), or a falsy value ([undefined], or the number 0). *)
Inductive JsLookup (A : Type) := JOwn (a : A) | JInherited | JMissing.
Arguments JOwn {A} _.
Arguments JInherited {A}.
Arguments JMissing {A}.

(** Truthiness of the number held by [Object.prototype.lastAccessed]. *)
Definition proto_truthy (v : option Z) : bool :=
  match v with
  | Some t => negb (t =? 0)
  | None => false
  end.

Definition js_get {A} (protoLastAccessed : option Z) (m : gmap string A) (k : string)
    : JsLookup A :=
  match m !! k with
  | Some v => JOwn v
  | None =>
      if existsb (String.eqb k) proto_keys
         || (proto_truthy protoLastAccessed && String.eqb k "lastAccessed")
      then JInherited else JMissing
  end.

(** [s.replace(pat, rep)] with a string pattern: the first occurrence only. *)
Fixpoint replace_first (pat rep s : string) : string :=
  if starts_with pat s then (rep ++ substring (String.length pat) (String.length s) s)%string
  else match s with
       | EmptyString => EmptyString
       | String c s' => String c (replace_first pat rep s')
       end.

(** [24 * 60 * 60 * 1000] *)
Definition web_day : Z := 24 * 60 * 60 * 1000.

Definition auth_required : Response := json_error 401 "Authentication required".

(** [req.headers['authorization']?.replace('Bearer ', '')] *)
Definition bearer_token (authz : option string) : option string :=
  option_map (replace_first "Bearer " "") authz.

(** What [validateWebSession] stores in [req.webSession]: a login record, or
    an object inherited from [Object.prototype]. *)
Inductive Principal :=
| PLogin (token : string) (w : WebLogin)
| PInherited (token : string).

(** [validateWebSession].  On an inherited value, [session.created] is
    [undefined], so the expiry test compares [NaN] and fails, and
    [session.lastAccessed = Date.now()] writes on the inherited object: on
    [Object.prototype] itself when the token is ["__proto__"]; a write on a
    primitive value (the number found under ["lastAccessed"]) is ignored. *)
Definition validate_web_session (now : Z) (authz : option string) (a : Auth)
    : (Response + Principal) * Auth :=
  if js_falsy (bearer_token authz) then (inl auth_required, a) else
  let tok := default "" (bearer_token authz) in
  match js_get (proto_lastAccessed a) (webSessions a) tok with
  | JMissing => (inl auth_required, a)
  | JInherited =>
      (inr (PInherited tok),
       if String.eqb tok "__proto__" then mkAuth (users a) (webSessions a) (Some now) else a)
  | JOwn w =>
      if web_day <? now - wl_created w then
        (inl (json_error 401 "Session expired"),
         mkAuth (users a) (delete tok (webSessions a)) (proto_lastAccessed a))
      else
        let w' := mkWebLogin (wl_username w) (wl_isAdmin w) (wl_created w) now in
        (inr (PLogin tok w'), mkAuth (users a) (<[tok := w']> (webSessions a)) (proto_lastAccessed a))
  end.

(** [req.webSession] of a login, as the session routes read it. *)
Definition web_session_of (w : WebLogin) : WebSession :=
  mkWebSession (Some (wl_username w)) (wl_isAdmin w).

(** [req.webSession] of any principal: an object inherited from
    [Object.prototype] (a function, [Object.prototype] itself, or the value
    of a property written there) has no [username] and no [isAdmin]. *)
Definition principal_session (p : Principal) : WebSession :=
  match p with
  | PLogin _ w => web_session_of w
  | PInherited _ => mkWebSession None false
  end.

(** [POST /api/logout], behind [validateWebSession]. *)
Definition api_logout (now : Z) (authz : option string) (a : Auth) : Response * Auth :=
  match validate_web_session now authz a with
  | (inl r, a') => (r, a')
  | (inr _, a') =>
      let ok := json [("message", JStr "Logged out successfully")] in
      if js_falsy (bearer_token authz) then (ok, a') else
      let tok := default "" (bearer_token authz) in
      match js_get (proto_lastAccessed a') (webSessions a') tok with
      | JMissing => (ok, a')
      | _ => (ok, mkAuth (users a') (delete tok (webSessions a')) (proto_lastAccessed a'))
      end
  end.

(** The second half of the periodic sweep: web sessions created more than a
    day ago are deleted ([Object.keys] gives the own keys only). *)
Definition web_sweep (now : Z) (a : Auth) : Auth :=
  mkAuth (users a)
    (filter (fun kv => (now - wl_created kv.2 <=? web_day) = true) (webSessions a))
    (proto_lastAccessed a).

Section Accounts.

(** [hashPassword]: the hex SHA-1 digest, left abstract. *)
Variable hashPassword : string -> string.

(** [API_KEY], as the bytes of its UTF-8 encoding. *)
Variable API_KEY : string.

(** [POST /api/login]; [token] is the value of [uuidv4()]. *)
Definition api_login (now : Z) (token : string) (username password : option string) (a : Auth)
    : Response * Auth :=
  if js_falsy username || js_falsy password then
    (json_error 400 "Username and password are required", a) else
  let u := default "" username in
  let p := default "" password in
  match js_get (proto_lastAccessed a) (users a) u with
  | JOwn user =>
      if String.eqb (passwordHash user) (hashPassword p) then
        (json [("token", JStr token); ("username", JStr u); ("isAdmin", JBool (u_isAdmin user))],
         mkAuth (users a) (<[token := mkWebLogin u (u_isAdmin user) now now]> (webSessions a))
           (proto_lastAccessed a))
      else (json_error 401 "Invalid username or password", a)
  | _ => (json_error 401 "Invalid username or password", a)
  end.

(** [POST /api/register]. *)
Definition api_register (username password adminKey : option string) (a : Auth)
    : Response * Auth :=
  if js_falsy username || js_falsy password then
    (json_error 400 "Username and password are required", a) else
  let u := default "" username in
  let p := default "" password in
  match js_get (proto_lastAccessed a) (users a) u with
  | JMissing =>
      let adm := match adminKey with Some k => String.eqb k API_KEY | None => false end in
      (json_status 201 [("message", JStr "User registered successfully"); ("isAdmin", JBool adm)],
       mkAuth (<[u := mkUser u (hashPassword p) adm]> (users a)) (webSessions a)
         (proto_lastAccessed a))
  | _ => (json_error 409 "Username already exists", a)
  end.

(** [Buffer.from(h, 'utf8')] of a header value, whose bytes Node decodes as
    latin-1 characters. *)
Fixpoint latin1_to_utf8 (s : string) : string :=
  match s with
  | EmptyString => EmptyString
  | String c s' =>
      let n := Ascii.nat_of_ascii c in
      if Nat.ltb n 128 then String c (latin1_to_utf8 s')
      else String (Ascii.ascii_of_nat (192 + n / 64))
             (String (Ascii.ascii_of_nat (128 + n mod 64)) (latin1_to_utf8 s'))
  end.

(** [authenticate]: [None] is [next()].  [crypto.timingSafeEqual] throws
    when the two buffers differ in length. *)
Definition authenticate (hdr : option string) : option Response :=
  if js_falsy hdr then Some (json_error 401 "API key is required") else
  let b := latin1_to_utf8 (default "" hdr) in
  if negb (Nat.eqb (String.length b) (String.length API_KEY)) then
    Some (json_error 401 "Invalid API key format")
  else if String.eqb b API_KEY then None
  else Some (json_error 401 "Invalid API key").

End Accounts.

(** Every byte of [s] is below 128: [s] is plain ASCII. *)
Fixpoint ascii_only (s : string) : bool :=
  match s with
  | EmptyString => true
  | String c s' => Nat.ltb (Ascii.nat_of_ascii c) 128 && ascii_only s'
  end.

(** ** Other pieces of the server *)

(** The entry [securityLogger] appends to [security.log]; [body] is the value
    of [req.body] when the middleware runs. *)
Record SecurityEntry := mkSecurityEntry {
  se_timestamp : string;
  se_ip : string;
  se_method : string;
  se_path : string;
  se_headers : list (string * string);
  se_body : option JVal }.

Definition security_log (now : Z) (ip method path : string) (headers : list (string * string))
    (body : option JVal) : option SecurityEntry :=
  if starts_with "/css/" path || starts_with "/js/" path || starts_with "/img/" path then None
  else Some (mkSecurityEntry (toISOString now) ip method path headers
               (if negb (String.eqb path "/api/login") && negb (String.eqb path "/api/register")
                then body else None)).

(** [GET /health] *)
Definition health (cfg : Config) (st : Server) : Response :=
  json [("status", JStr "ok");
        ("activeSessions", JNum (Z.of_nat (length (map_to_list (sessions st)))));
        ("containerCount", JNum (containerCount st));
        ("maxContainers", JNum (MAX_CONTAINERS cfg))].

(** The [SIGTERM] handler: [await cleanupSession(id)] for each id of
    [Object.keys(sessions)], one after the other. *)
Definition shutdown_step (env : Env) (st : Server) (sid : string) : Server :=
  match cleanup_spawn st sid with
  | [] => st
  | _ => cleanup_finish (env_cleanup env sid) sid st
  end.

Definition shutdown (env : Env) (st : Server) : Server :=
  fold_left (shutdown_step env) (map_to_list (sessions st)).*1 st.

(** ** Concrete inputs *)

Definition ex_cfg : Config := mkConfig 1 3600000.
Definition alice : WebSession := mkWebSession (Some "alice") false.
Definition bob : WebSession := mkWebSession (Some "bob") false.
Definition root_ws : WebSession := mkWebSession (Some "admin") true.

(** Docker answers everything; Docker's socket is missing. *)
Definition env_up : Env := mkEnv 1000 (Ok "c1") (fun _ => Ok tt) (ExecDone "hi" 0).
Definition env_down : Env :=
  mkEnv 1000 (Err docker_sock_enoent) (fun _ => Err docker_sock_enoent)
    (ExecThrow docker_sock_enoent).

(** Alice's session "s1", last used at time 0, in mock mode and in real mode. *)
Definition mock_s : Session :=
  mkSession "alice" "10.0.0.1" "mock-container-m1" 0 0 (Some "alice") (Some "Session-s1")
    true (Some 0) (Some []).
Definition real_s : Session :=
  mkSession "alice" "10.0.0.1" "c1" 0 0 (Some "alice") (Some "Session-s1")
    false (Some 0) (Some []).
Definition st_mock : Server := mkServer {[ "s1" := mock_s ]} 1.
Definition st_real : Server := mkServer {[ "s1" := real_s ]} 1.

(** A time at which both sessions have been idle past the timeout. *)
Definition late : Z := 3600001.

(** ** Properties *)

(** Claim C10: with a missing or empty [command], [POST /api/execute-command]
    answers 400 "Command is required" before it looks at the session: no
    continuation is left and the server state (every session's
    [lastAccessed], [commandCount] and [logs]) is unchanged, whatever the
    session id and requester. *)
Theorem C10_empty_command_changes_nothing cfg now env ws command sessionId st :
  js_falsy command = true ->
  begin_request cfg now (ApiExecuteCommand ws command sessionId) st
    = (Some (json_error 400 "Command is required"), st, []) /\
  run_request cfg now env (ApiExecuteCommand ws command sessionId) st
    = (Some (json_error 400 "Command is required"), st).
Proof.
  intros Hc. unfold run_request, begin_request, api_execute_begin.
  rewrite Hc. split; reflexivity.
Qed.

Lemma C10_empty_command_changes_nothing_witness :
  js_falsy (Some "") = true /\
  begin_request ex_cfg 5 (ApiExecuteCommand alice (Some "") (Some "s1")) st_real
    = (Some (json_error 400 "Command is required"), st_real, []) /\
  run_request ex_cfg 5 env_up (ApiExecuteCommand alice (Some "") (Some "s1")) st_real
    = (Some (json_error 400 "Command is required"), st_real).
Proof.
  split; [reflexivity |].
  apply (C10_empty_command_changes_nothing ex_cfg 5 env_up alice (Some "") (Some "s1") st_real).
  reflexivity.
Defined.

(** Claim C9: below capacity, when container creation fails with an error
    that is not the missing Docker socket, [POST /api/create-session],
    [POST /create-session] and the creating branch of
    [POST /execute-command-legacy] answer 500 and leave the server state
    unchanged: no session stored, [containerCount] untouched. *)
Theorem C9_create_failure_all_or_nothing cfg now env st ws sid uuid mockUuid ip name
    bodyUserId deviceId command msg :
  containerCount st < MAX_CONTAINERS cfg ->
  env_create env = Err msg ->
  includes msg docker_sock_enoent = false ->
  run_request cfg now env (ApiCreateSession ws sid uuid mockUuid ip name) st
    = (Some (json_error 500 ("Failed to create session: " ++ msg)%string), st) /\
  run_request cfg now env (CreateSession sid bodyUserId uuid ip) st
    = (Some (json_error 500 ("Failed to create session: " ++ msg)%string), st) /\
  (js_falsy command = false -> find_by_userId deviceId st = None ->
   run_request cfg now env (ExecuteCommandLegacy deviceId command sid ip) st
    = (Some (json_error 500 "Failed to create session"), st)).
Proof.
  intros Hcap Henv Hmsg.
  assert (Hchk : create_check cfg st = None).
  { unfold create_check. destruct (Z.leb_spec (MAX_CONTAINERS cfg) (containerCount st)); [lia | done]. }
  unfold run_request, begin_request. rewrite Hchk. simpl.
  rewrite Henv. simpl. rewrite Hmsg.
  split; [reflexivity |]. split; [reflexivity |].
  intros Hcmd Hfind. rewrite Hcmd, Hfind. simpl. rewrite Henv. reflexivity.
Qed.

Lemma C9_create_failure_all_or_nothing_witness :
  containerCount st_real < MAX_CONTAINERS (mkConfig 5 3600000) /\
  env_create (mkEnv 0 (Err "no such image") (fun _ => Ok tt) ExecInspectFail)
    = Err "no such image" /\
  includes "no such image" docker_sock_enoent = false /\
  run_request (mkConfig 5 3600000) 0 (mkEnv 0 (Err "no such image") (fun _ => Ok tt) ExecInspectFail)
    (ApiCreateSession alice "s2" "u2" "m2" "ip" None) st_real
    = (Some (json_error 500 ("Failed to create session: " ++ "no such image")%string), st_real).
Proof.
  refine (conj _ (conj eq_refl (conj eq_refl _))); [simpl; lia |].
  apply (C9_create_failure_all_or_nothing (mkConfig 5 3600000) 0
           (mkEnv 0 (Err "no such image") (fun _ => Ok tt) ExecInspectFail) st_real
           alice "s2" "u2" "m2" "ip" None None "dev" (Some "ls") "no such image");
    [simpl; lia | reflexivity | reflexivity].
Defined.

Lemma js_falsy_some_nonempty sid : sid <> "" -> js_falsy (Some sid) = false.
Proof. intros H. simpl. by apply String.eqb_neq. Qed.

(** Claim C3 (amended): for an id that names no property a plain object can
    inherit, [DELETE /api/session/:id] on an id that is not in the table
    (unknown, already terminated or already reaped) answers 404 "Session not
    found" and changes nothing.  On a session the requester may terminate,
    with the calls served one after the other: when the first call's
    teardown succeeds, that call answers "Session terminated successfully"
    and removes the session, and a second call answers 404 and changes
    nothing; over the two calls [containerCount] goes down by one exactly
    when one of the teardowns succeeded, never by two. *)
Theorem C3_terminate_unknown_404_and_decrement_once cfg now1 now2 env1 env2 ws sid :
  ~ In sid inheritable_names ->
  (forall st, sessions st !! sid = None ->
     run_request cfg now1 env1 (ApiDeleteSession ws sid) st
       = (Some (json_error 404 "Session not found"), st)) /\
  (forall s st, sessions st !! sid = Some s -> forbidden ws s = false ->
   let '(r1, st1) := run_request cfg now1 env1 (ApiDeleteSession ws sid) st in
   let '(r2, st2) := run_request cfg now2 env2 (ApiDeleteSession ws sid) st1 in
   (cleanup_ok (env_cleanup env1 sid) = true ->
      r1 = Some terminated /\ sessions st1 !! sid = None /\
      r2 = Some (json_error 404 "Session not found") /\ st2 = st1) /\
   containerCount st2 = containerCount st
     - (if cleanup_ok (env_cleanup env1 sid) || cleanup_ok (env_cleanup env2 sid)
        then 1 else 0)).
Proof.
  intros _. split.
  { intros st0 H0. unfold run_request, begin_request. rewrite H0. reflexivity. }
  intros s st Hs Hf.
  unfold run_request, begin_request. rewrite Hs, Hf. unfold cleanup_spawn. rewrite Hs.
  cbn [resolve_all resolve].
  destruct (env_cleanup env1 sid) as [[]|m1]; cbn [cleanup_finish sessions containerCount].
  - rewrite lookup_delete_eq. cbn. split; [| lia].
    intros _. split; [done | split; [reflexivity | done]].
  - rewrite Hs, Hf. cbn [resolve_all resolve].
    destruct (env_cleanup env2 sid) as [[]|m2]; cbn;
      (split; [discriminate | lia]).
Qed.

Lemma C3_terminate_unknown_404_and_decrement_once_witness :
  ~ In "s1" inheritable_names /\
  run_request ex_cfg 5 env_up (ApiDeleteSession alice "s1") (mkServer ∅ 0)
    = (Some (json_error 404 "Session not found"), mkServer ∅ 0).
Proof.
  assert (Hn : ~ In "s1" inheritable_names).
  { unfold inheritable_names, proto_keys. simpl.
    intros H; repeat destruct H as [H|H]; try discriminate; done. }
  split; [exact Hn |].
  destruct (C3_terminate_unknown_404_and_decrement_once ex_cfg 5 6 env_up env_up alice "s1" Hn)
    as [H _].
  apply H. reflexivity.
Defined.

(** Claim C3 fails as stated: terminating an unknown session id is answered
    with the error 404 "Session not found", not a no-op success. *)
Lemma C3_unknown_id_is_an_error :
  run_request ex_cfg 5 env_up (ApiDeleteSession alice "s9") st_real
    = (Some (json_error 404 "Session not found"), st_real).
Proof. reflexivity. Qed.

(** Claim C4: [POST /api/execute-command] with a command on a session idle
    past [SESSION_TIMEOUT] answers 401 "Session expired", does not dispatch
    the command and does not touch [lastAccessed], [commandCount] or [logs];
    it starts the same [cleanupSession] as the periodic sweep, and the
    session leaves the table (with [containerCount] decremented) only if
    stopping and removing its container succeed; otherwise it stays. *)
Theorem C4_expired_execute_starts_teardown cfg now env ws cmd sid s st :
  sessions st !! sid = Some s ->
  sid <> "" ->
  js_falsy cmd = false ->
  is_expired cfg now s = true ->
  begin_request cfg now (ApiExecuteCommand ws cmd (Some sid)) st
    = (Some (json_error 401 "Session expired"), st, [TCleanup sid]) /\
  run_request cfg now env (ApiExecuteCommand ws cmd (Some sid)) st
    = (Some (json_error 401 "Session expired"),
       match env_cleanup env sid with
       | Ok _ => mkServer (delete sid (sessions st)) (containerCount st - 1)
       | Err _ => st
       end).
Proof.
  intros Hs Hsid Hc He.
  assert (Hb : begin_request cfg now (ApiExecuteCommand ws cmd (Some sid)) st
               = (Some (json_error 401 "Session expired"), st, [TCleanup sid])).
  { simpl. unfold api_execute_begin. rewrite Hc, js_falsy_some_nonempty by done. simpl.
    rewrite Hs, He. unfold cleanup_spawn. rewrite Hs. reflexivity. }
  split; [exact Hb |]. unfold run_request. rewrite Hb. simpl.
  destruct (env_cleanup env sid); reflexivity.
Qed.

Lemma C4_expired_execute_starts_teardown_witness :
  sessions st_real !! "s1" = Some real_s /\ "s1" <> "" /\ js_falsy (Some "ls") = false /\
  is_expired ex_cfg late real_s = true /\
  run_request ex_cfg late env_up (ApiExecuteCommand alice (Some "ls") (Some "s1")) st_real
    = (Some (json_error 401 "Session expired"), mkServer (delete "s1" (sessions st_real)) 0).
Proof.
  refine (conj eq_refl (conj _ (conj eq_refl (conj eq_refl _)))); [discriminate |].
  apply (C4_expired_execute_starts_teardown ex_cfg late env_up alice (Some "ls") "s1"
           real_s st_real); [reflexivity | discriminate | reflexivity | reflexivity].
Defined.

(** Claim C4 fails as stated: an expired mock session, on a host whose
    Docker socket is missing, is answered "Session expired" but stays in
    the table, because stopping its container fails. *)
Lemma C4_expired_mock_session_not_removed :
  run_request ex_cfg late env_down (ApiExecuteCommand alice (Some "ls") (Some "s1")) st_mock
    = (Some (json_error 401 "Session expired"), st_mock) /\
  sessions st_mock !! "s1" = Some mock_s.
Proof. split; reflexivity. Qed.

(** An API-key session: "s1", created through [POST /create-session] with
    Docker up; it has no [webUser]. *)
Definition st_api : Server :=
  (run_request ex_cfg 0 env_up (CreateSession "s1" None "u1" "10.0.0.1") init_server).2.

(** Claim C7 is broken by an ownership check that compares [undefined] with
    [undefined].  The bearer token ["constructor"] belongs to no login, yet
    [validateWebSession] accepts it: [webSessions["constructor"]] is the
    inherited [Object] function, which becomes [req.webSession], with no
    [username] and no [isAdmin].  On a session created through the API-key
    route, whose [webUser] is [undefined] as well,
    [session.webUser !== req.webSession.username] is false, so
    [POST /api/execute-command] from this requester, who is neither the
    session's owner nor an admin, runs the command: the answer is the
    command's output and the session's [commandCount] goes up.  (The audit
    write is taken to succeed; had it thrown, the answer would be a 500
    from the handler's [catch], after the ownership check had passed and
    [lastAccessed] and [commandCount] had been written.) *)
Lemma C7_inherited_principal_executes :
  validate_web_session 2000 (Some "Bearer constructor") init_auth
    = (inr (PInherited "constructor"), init_auth) /\
  principal_session (PInherited "constructor") = mkWebSession None false /\
  option_map webUser (sessions st_api !! "s1") = Some None /\
  run_request ex_cfg 2000 env_up
    (ApiExecuteCommand (principal_session (PInherited "constructor")) (Some "ls") (Some "s1")) st_api
    = (Some (json [("output", JStr "hi"); ("exitCode", JNum 0)]),
       mkServer (<[ "s1" := record_command 2000 (mkWebSession None false) "s1" "ls"
                             (mkSession "u1" "10.0.0.1" "c1" 1000 1000 None None false None None) ]>
                   (sessions st_api)) 1).
Proof. vm_compute. repeat split; reflexivity. Qed.

(** Claim C6: the session detail answer of [GET /api/session/:id] and every
    entry of [GET /api/sessions] carry no [isMock] field, whatever the
    session's mode, although the creation and command answers for a mock
    session carry [isMock: true]. *)
Theorem C6_detail_and_listing_never_flag_mock cfg now ws sid st :
  has_field "isMock" (body (api_get_session cfg now ws sid st)) = false /\
  exists vs, body (api_list_sessions cfg now ws st) = JArr vs /\
             Forall (fun v => has_field "isMock" v = false) vs.
Proof.
  split.
  - unfold api_get_session. destruct (sessions st !! sid) as [s|]; [| reflexivity].
    destruct (forbidden ws s); reflexivity.
  - unfold api_list_sessions. destruct (isAdmin ws); eexists; split; try reflexivity;
      apply Forall_forall; intros v Hv; apply list_elem_of_In, in_map_iff in Hv as [[k s] [<- _]];
      reflexivity.
Qed.

(** The answers that do flag a mock session: its creation in mock mode and
    a command run in it. *)
Example mock_creation_and_command_flagged :
  (let '(r, _) := run_request ex_cfg 0 env_down
                    (ApiCreateSession alice "s1" "u1" "m1" "10.0.0.1" None) init_server in
   option_map (fun r => has_field "isMock" (body r)) r) = Some true /\
  (let '(r, _) := run_request ex_cfg 5 env_down
                    (ApiExecuteCommand alice (Some "ls") (Some "s1")) st_mock in
   option_map (fun r => has_field "isMock" (body r)) r) = Some true.
Proof. split; reflexivity. Qed.

(** The mock session of Alice, looked up by Alice: a 200 answer without
    [isMock]. *)
Example mock_detail_unflagged :
  status (api_get_session ex_cfg 5 alice "s1" st_mock) = 200 /\
  has_field "isMock" (body (api_get_session ex_cfg 5 alice "s1" st_mock)) = false.
Proof. split; reflexivity. Qed.

(** ** Capacity and teardown races *)



(** [containerCount] equals the number of stored sessions. *)
Definition count_inv (st : Server) : Prop :=
  containerCount st = Z.of_nat (size (sessions st)).

(** The server after alice's first web session has been created with Docker up. *)
Definition st_one : Server :=
  (run_request ex_cfg 0 env_up (ApiCreateSession alice "s1" "u1" "m1" "10.0.0.1" None)
     init_server).2.

(** Claim C1 is broken by a race in the handler: [POST /api/create-session]
    checks [containerCount] before it awaits the container creation and
    increments it only after.  Two requests whose checks both run before
    either creation resolves both store a session: with [MAX_CONTAINERS] 1,
    two sessions are stored and [containerCount] is 2. *)
Lemma C1_concurrent_creates_exceed_capacity :
  exists w, reach ex_cfg init_world w /\
    Z.of_nat (size (sessions (srv w))) = 2 /\ containerCount (srv w) = 2 /\
    MAX_CONTAINERS ex_cfg < containerCount (srv w).
Proof.
  eexists. split.
  - eapply rtc_l.
    { eapply (step_request _ 0 (ApiCreateSession alice "s1" "u1" "m1" "10.0.0.1" None)).
      reflexivity. }
    eapply rtc_l.
    { eapply (step_request _ 0 (ApiCreateSession alice "s2" "u2" "m2" "10.0.0.1" None)).
      reflexivity. }
    eapply rtc_l.
    { eapply (step_resume _ env_up _ [] _);
        [reflexivity | intros ? H; injection H as <-; reflexivity | reflexivity]. }
    eapply rtc_l.
    { eapply (step_resume _ env_up _ [] _);
        [reflexivity | intros ? H; injection H as <-; reflexivity | reflexivity]. }
    apply rtc_refl.
  - vm_compute. repeat split; reflexivity.
Qed.

(** Claim C2 is broken by a race in [cleanupSession]: its existence check
    runs before it awaits [container.stop()] and [container.remove()], and
    the decrement after them.  Two [DELETE /api/session/:id] requests for the
    same session both pass the check before either teardown resolves, and
    both teardowns decrement the counter: one session was created, and
    [containerCount] ends at -1 with no session stored. *)
Lemma C2_double_teardown_double_decrement :
  exists w, reach ex_cfg init_world w /\
    sessions (srv w) = ∅ /\ containerCount (srv w) = -1.
Proof.
  eexists. split.
  - eapply rtc_l.
    { eapply (step_request _ 0 (ApiCreateSession alice "s1" "u1" "m1" "10.0.0.1" None)).
      reflexivity. }
    eapply rtc_l.
    { eapply (step_resume _ env_up _ [] _);
        [reflexivity | intros ? H; injection H as <-; reflexivity | reflexivity]. }
    eapply rtc_l.
    { eapply (step_request _ 5 (ApiDeleteSession alice "s1")). reflexivity. }
    eapply rtc_l.
    { eapply (step_request _ 5 (ApiDeleteSession alice "s1")). reflexivity. }
    eapply rtc_l.
    { eapply (step_resume _ env_up _ [] _);
        [reflexivity | intros ? H; discriminate | reflexivity]. }
    eapply rtc_l.
    { eapply (step_resume _ env_up _ [] _);
        [reflexivity | intros ? H; discriminate | reflexivity]. }
    apply rtc_refl.
  - vm_compute. split; reflexivity.
Qed.

(** ** Invariants: how a stored session object may change *)

Definition log_len (s : Session) : nat := length (default [] (logs s)).

(** A session object after one mutation: mock mode is never unset, and a log
    of at most 10 entries stays at most 10 entries. *)
Definition sess_rel (s s' : Session) : Prop :=
  (isMock s = true -> isMock s' = true) /\ ((log_len s <= 10)%nat -> (log_len s' <= 10)%nat).

(** A session object stored under a fresh id. *)
Definition fresh_ok (s : Session) : Prop := (log_len s <= 10)%nat.

(** Each session of [st'] is a session of [st] after one mutation, or a new
    one under an id [st] did not have. *)
Definition evolves (st st' : Server) : Prop :=
  forall sid s', sessions st' !! sid = Some s' ->
    (exists s, sessions st !! sid = Some s /\ sess_rel s s') \/
    (sessions st !! sid = None /\ fresh_ok s').

Lemma sess_rel_refl s : sess_rel s s.
Proof. split; auto. Qed.

Lemma push_log_spec e l : (length l <= 10)%nat -> push_log e l = e :: firstn 9 l.
Proof.
  intros H. unfold push_log. cbn [length].
  destruct (Nat.ltb_spec 10 (S (length l))).
  - rewrite removelast_firstn_len. replace (length (e :: l)) with 11%nat by (simpl; lia).
    reflexivity.
  - rewrite firstn_all2 by lia. reflexivity.
Qed.

Lemma push_log_length e l : (length l <= 10)%nat -> (length (push_log e l) <= 10)%nat.
Proof. intros H. rewrite push_log_spec by done. simpl. rewrite length_firstn. lia. Qed.

Lemma sess_rel_record_command now ws sid cmd s : sess_rel s (record_command now ws sid cmd s).
Proof.
  split; [done |]. unfold log_len, record_command, set_activity. simpl. apply push_log_length.
Qed.

Lemma sess_rel_set_lastAccessed t s : sess_rel s (set_lastAccessed t s).
Proof. split; done. Qed.

Lemma sess_rel_set_isMock s : sess_rel s (set_isMock s).
Proof. split; done. Qed.

Lemma evolves_same st st' : sessions st' = sessions st -> evolves st st'.
Proof. intros E sid s' H. left. exists s'. rewrite <- E. split; [done | apply sess_rel_refl]. Qed.

Lemma evolves_insert_present st k s v c :
  sessions st !! k = Some s -> sess_rel s v ->
  evolves st (mkServer (<[k := v]> (sessions st)) c).
Proof.
  intros Hk Hr sid s' H. simpl in H. left.
  apply lookup_insert_Some in H as [[<- <-]|[_ H]].
  - by exists s.
  - exists s'. split; [done | apply sess_rel_refl].
Qed.

Lemma evolves_update f k st :
  (forall s, sess_rel s (f s)) -> evolves st (update_session f k st).
Proof.
  intros Hf. unfold update_session. destruct (sessions st !! k) eqn:E.
  - by apply evolves_insert_present with s.
  - by apply evolves_same.
Qed.

Lemma evolves_insert_fresh st k v c :
  sessions st !! k = None -> fresh_ok v ->
  evolves st (mkServer (<[k := v]> (sessions st)) c).
Proof.
  intros Hk Hv sid s' H. simpl in H.
  apply lookup_insert_Some in H as [[<- <-]|[_ H]].
  - by right.
  - left. exists s'. split; [done | apply sess_rel_refl].
Qed.

Lemma evolves_insert_fresh_update st f k v c :
  sessions st !! k = None -> fresh_ok (f v) ->
  evolves st (update_session f k (mkServer (<[k := v]> (sessions st)) c)).
Proof.
  intros Hk Hv. unfold update_session. cbn [sessions containerCount].
  rewrite lookup_insert_eq. cbn [sessions containerCount]. rewrite insert_insert_eq.
  by apply evolves_insert_fresh.
Qed.

Lemma evolves_delete st k c : evolves st (mkServer (delete k (sessions st)) c).
Proof.
  intros sid s' H. simpl in H. apply lookup_delete_Some in H as [_ H].
  left. exists s'. split; [done | apply sess_rel_refl].
Qed.

Lemma evolves_validate cfg now hdr st x st' ts :
  validate_session cfg now hdr st = (x, st', ts) -> evolves st st'.
Proof.
  unfold validate_session. intros E.
  destruct (js_falsy hdr); [injection E as _ <- _; by apply evolves_same |].
  destruct (sessions st !! default "" hdr) as [s|]; [| injection E as _ <- _; by apply evolves_same].
  destruct (is_expired cfg now s); injection E as _ <- _; [by apply evolves_same |].
  apply evolves_update, sess_rel_set_lastAccessed.
Qed.

Lemma evolves_begin cfg now req st r st' ts :
  begin_request cfg now req st = (r, st', ts) -> evolves st st'.
Proof.
  intros E.
  destruct req as [ws sid uuid mockUuid ip name|sid bodyUserId uuid ip|ws command sessionId
                  |ws sid|ws|ws sid|hdr command|hdr|hdr|deviceId command sid ip|]; simpl in E.
  - destruct (create_check cfg st); injection E as _ <- _; by apply evolves_same.
  - destruct (create_check cfg st); injection E as _ <- _; by apply evolves_same.
  - unfold api_execute_begin in E.
    destruct (js_falsy command); [injection E as _ <- _; by apply evolves_same |].
    destruct (js_falsy sessionId); [injection E as _ <- _; by apply evolves_same |].
    destruct (sessions st !! default "" sessionId) as [s|] eqn:Es;
      [| injection E as _ <- _; by apply evolves_same].
    destruct (is_expired cfg now s); [injection E as _ <- _; by apply evolves_same |].
    destruct (forbidden ws s); [injection E as _ <- _; by apply evolves_same |].
    destruct (isMock s); injection E as _ <- _;
      (eapply evolves_insert_present; [exact Es | apply sess_rel_record_command]).
  - injection E as _ <- _. by apply evolves_same.
  - injection E as _ <- _. by apply evolves_same.
  - destruct (sessions st !! sid) as [s|]; [| injection E as _ <- _; by apply evolves_same].
    destruct (forbidden ws s); injection E as _ <- _; by apply evolves_same.
  - destruct (validate_session cfg now hdr st) as [[[x|x] st1] ts1] eqn:Hval;
      apply evolves_validate in Hval; [injection E as _ <- _; done |].
    destruct (js_falsy command); injection E as _ <- _; done.
  - destruct (validate_session cfg now hdr st) as [[[x|x] st1] ts1] eqn:Hval;
      apply evolves_validate in Hval; [injection E as _ <- _; done |].
    destruct (sessions st1 !! x); injection E as _ <- _; done.
  - destruct (validate_session cfg now hdr st) as [[[x|x] st1] ts1] eqn:Hval;
      apply evolves_validate in Hval; injection E as _ <- _; done.
  - destruct (js_falsy command); [injection E as _ <- _; by apply evolves_same |].
    destruct (find_by_userId deviceId st).
    + injection E as _ <- _. apply evolves_update, sess_rel_set_lastAccessed.
    + destruct (create_check cfg st); injection E as _ <- _; by apply evolves_same.
  - injection E as _ <- _. by apply evolves_same.
Qed.

Lemma evolves_resolve cfg env t st :
  (forall k, task_inserts t = Some k -> sessions st !! k = None) ->
  evolves st (resolve cfg env t st).2.
Proof.
  intros Hfresh.
  destruct t as [ws sid uid mockId ip name|sid uid ip|sid uid ip|sid|sid cmd|sid cmd s|]; simpl.
  - specialize (Hfresh sid eq_refl). unfold api_create_finish.
    destruct (env_create env) as [cid|msg]; simpl;
      [by apply evolves_insert_fresh; [| unfold fresh_ok, log_len; simpl; lia] |].
    destruct (includes msg docker_sock_enoent); simpl; [| by apply evolves_same].
    by apply evolves_insert_fresh; [| unfold fresh_ok, log_len; simpl; lia].
  - specialize (Hfresh sid eq_refl). unfold legacy_create_finish.
    destruct (env_create env); simpl; [| by apply evolves_same].
    by apply evolves_insert_fresh; [| unfold fresh_ok, log_len; simpl; lia].
  - specialize (Hfresh sid eq_refl). unfold legacy_exec_create_finish.
    destruct (env_create env); simpl; [| by apply evolves_same].
    by apply evolves_insert_fresh_update; [| unfold fresh_ok, log_len; simpl; lia].
  - unfold cleanup_finish. destruct (env_cleanup env sid); [apply evolves_delete | by apply evolves_same].
  - unfold api_exec_finish. destruct (env_exec env) as [m|m|o c|]; simpl; try by apply evolves_same.
    + destruct (includes m docker_sock_enoent); simpl; [| by apply evolves_same].
      apply evolves_update, sess_rel_set_isMock.
    + destruct (c =? 0); simpl; by apply evolves_same.
  - by apply evolves_same.
  - by apply evolves_same.
Qed.

Lemma evolves_step cfg w w' : step cfg w w' -> evolves (srv w) (srv w').
Proof.
  intros [now req w0 r st' ts E | env t pre post w0 r st' _ Hfresh E]; simpl.
  - by eapply evolves_begin.
  - assert (H := evolves_resolve cfg env t (srv w0) Hfresh). by rewrite E in H.
Qed.

(** Every stored log has at most 10 entries. *)
Definition logs_ok (st : Server) : Prop :=
  forall sid s, sessions st !! sid = Some s -> (log_len s <= 10)%nat.

Lemma logs_ok_evolves st st' : evolves st st' -> logs_ok st -> logs_ok st'.
Proof.
  intros Hev Hok sid s' H. destruct (Hev sid s' H) as [[s [Hs [_ Hl]]]|[_ Hf]].
  - apply Hl. by apply (Hok sid).
  - done.
Qed.

Lemma logs_ok_reach cfg w : reach cfg init_world w -> logs_ok (srv w).
Proof.
  assert (Hgen : forall w0 w1, reach cfg w0 w1 -> logs_ok (srv w0) -> logs_ok (srv w1)).
  { induction 1 as [x|x y z Hs Hr IH]; intros Hok; [done |].
    apply IH. eapply logs_ok_evolves; [| exact Hok]. by apply (evolves_step cfg). }
  intros Hr. apply (Hgen _ _ Hr). intros sid s H. done.
Qed.

(** The commands of a run of eleven [POST /api/execute-command] calls. *)
Definition cmds11 : list string :=
  ["c1"; "c2"; "c3"; "c4"; "c5"; "c6"; "c7"; "c8"; "c9"; "c10"; "c11"].

(** Alice runs the commands one after the other on her session "s1". *)
Definition run_cmds (cmds : list string) (st : Server) : Server :=
  fold_left (fun st c =>
               (run_request ex_cfg 5 env_up (ApiExecuteCommand alice (Some c) (Some "s1")) st).2)
            cmds st.

(** Claim C5: along any run of interleaved requests and continuations
    (command executions, lookups, sweeps, Docker recovering or not) during
    which a session stays in the table, once its [isMock] is true it stays
    true. *)
Theorem C5_mock_never_reverts cfg sid w w' s :
  rtc (fun x y => step cfg x y /\ is_Some (sessions (srv y) !! sid)) w w' ->
  sessions (srv w) !! sid = Some s -> isMock s = true ->
  exists s', sessions (srv w') !! sid = Some s' /\ isMock s' = true.
Proof.
  intros Hr. revert s.
  induction Hr as [x|x y z [Hs [sy Hy]] Hr IH]; intros s Hx Hm; [by exists s |].
  apply (IH sy Hy).
  destruct (evolves_step cfg x y Hs sid sy Hy) as [[s0 [Hs0 [Hmock _]]]|[Hn _]].
  - rewrite Hx in Hs0. injection Hs0 as <-. by apply Hmock.
  - congruence.
Qed.

Lemma C5_mock_never_reverts_witness :
  exists w', rtc (fun x y => step ex_cfg x y /\ is_Some (sessions (srv y) !! "s1"))
               (mkWorld st_mock []) w' /\
    sessions (srv (mkWorld st_mock [])) !! "s1" = Some mock_s /\ isMock mock_s = true /\
    exists s', sessions (srv w') !! "s1" = Some s' /\ isMock s' = true.
Proof.
  assert (Hr : exists w', rtc (fun x y => step ex_cfg x y /\ is_Some (sessions (srv y) !! "s1"))
                            (mkWorld st_mock []) w').
  { eexists. eapply rtc_l; [| apply rtc_refl]. split.
    - eapply (step_request _ 5 (ApiExecuteCommand alice (Some "ls") (Some "s1"))).
      reflexivity.
    - eexists. reflexivity. }
  destruct Hr as [w' Hr]. exists w'.
  split; [exact Hr |]. split; [reflexivity |]. split; [reflexivity |].
  apply (C5_mock_never_reverts ex_cfg "s1" _ _ mock_s Hr); reflexivity.
Defined.

(** Claim C8: in every reachable state each session's [logs] has at most 10
    entries, and a [POST /api/execute-command] that gets past its checks
    stores the new entry first, followed by the previous entries newest
    first, of which the oldest is dropped once there were already 10. *)
Theorem C8_logs_bounded_newest_first cfg w now ws cmd sid s r st' ts :
  reach cfg init_world w ->
  sessions (srv w) !! sid = Some s ->
  (log_len s <= 10)%nat /\
  (begin_request cfg now (ApiExecuteCommand ws (Some cmd) (Some sid)) (srv w) = (r, st', ts) ->
   cmd <> "" -> sid <> "" -> is_expired cfg now s = false -> forbidden ws s = false ->
   exists s', sessions st' !! sid = Some s' /\
     logs s' = Some (mkLogEntry now (userId s) sid (clientIp s) cmd (username ws)
                       :: firstn 9 (default [] (logs s))) /\
     (log_len s' <= 10)%nat).
Proof.
  intros Hr Hs.
  assert (Hl : (log_len s <= 10)%nat) by (apply (logs_ok_reach cfg w Hr sid s Hs)).
  split; [exact Hl |].
  intros E Hcmd Hsid Hexp Hforb.
  unfold begin_request, api_execute_begin in E.
  rewrite (js_falsy_some_nonempty cmd Hcmd), (js_falsy_some_nonempty sid Hsid) in E.
  simpl in E. rewrite Hs, Hexp, Hforb in E.
  assert (Hst' : st' = mkServer (<[sid := record_command now ws sid cmd s]> (sessions (srv w)))
                         (containerCount (srv w)))
    by (destruct (isMock s); injection E as _ <- _; reflexivity).
  exists (record_command now ws sid cmd s). rewrite Hst'. simpl. rewrite lookup_insert_eq.
  split; [done |].
  unfold record_command, set_activity. simpl. rewrite push_log_spec by exact Hl.
  split; [done |]. unfold log_len. simpl. rewrite length_firstn. lia.
Qed.

Lemma C8_logs_bounded_newest_first_witness :
  exists w st', reach ex_cfg init_world w /\
    sessions (srv w) !! "s1" = Some real_s /\ (log_len real_s <= 10)%nat /\
    exists s', sessions st' !! "s1" = Some s' /\
      logs s' = Some [mkLogEntry 5 "alice" "s1" "10.0.0.1" "ls" (Some "alice")].
Proof.
  pose (st0 := mkServer (<[ "s1" := real_s ]> ∅) 1).
  assert (Hw : reach ex_cfg init_world (mkWorld st0 [])).
  { eapply rtc_l.
    { eapply (step_request _ 0 (ApiCreateSession alice "s1" "alice" "m1" "10.0.0.1"
                                   (Some "Session-s1"))).
      reflexivity. }
    eapply rtc_l.
    { eapply (step_resume _ (mkEnv 0 (Ok "c1") (fun _ => Ok tt) (ExecDone "hi" 0)) _ [] _);
        [reflexivity | intros ? H; injection H as <-; reflexivity | reflexivity]. }
    apply rtc_refl. }
  exists (mkWorld st0 []),
    (mkServer (<[ "s1" := record_command 5 alice "s1" "ls" real_s ]> (sessions st0)) 1).
  destruct (C8_logs_bounded_newest_first ex_cfg (mkWorld st0 []) 5 alice "ls" "s1" real_s
              None (mkServer (<[ "s1" := record_command 5 alice "s1" "ls" real_s ]>
                                (sessions st0)) 1)
              [TExecWeb "s1" "ls"] Hw eq_refl) as [Hl Hexec].
  split; [exact Hw | split; [reflexivity | split; [exact Hl |]]].
  destruct (Hexec eq_refl ltac:(discriminate) ltac:(discriminate) eq_refl eq_refl)
    as (s' & Hs' & Hlogs & _).
  exists s'. split; [exact Hs' | rewrite Hlogs; reflexivity].
Defined.

(** After eleven commands on a fresh session, the log holds the last ten,
    newest first: the first command is gone. *)
Example eleven_commands_evict_first :
  option_map (fun s => map log_command (default [] (logs s)))
    (sessions (run_cmds cmds11 st_real) !! "s1")
  = Some ["c11"; "c10"; "c9"; "c8"; "c7"; "c6"; "c5"; "c4"; "c3"; "c2"].
Proof. vm_compute. reflexivity. Qed.

(** ** Web UI accounts *)

Lemma substring_0_ge s n : (String.length s <= n)%nat -> substring 0 n s = s.
Proof.
  revert n. induction s as [|c s IH]; intros [|n] H; simpl in *; try done; [lia |].
  f_equal. apply IH. lia.
Qed.

Lemma substring_after (p s : string) m :
  (String.length s <= m)%nat -> substring (String.length p) m (p ++ s)%string = s.
Proof. induction p as [|c p IH]; simpl; [apply substring_0_ge | exact IH]. Qed.

Lemma length_app_ge (p s : string) : (String.length s <= String.length (p ++ s)%string)%nat.
Proof. induction p; simpl; [apply Nat.le_refl | lia]. Qed.

Lemma starts_with_app (p s : string) : starts_with p (p ++ s)%string = true.
Proof. induction p as [|c p IH]; simpl; [done | by rewrite Ascii.eqb_refl, IH]. Qed.

Lemma replace_first_prefix (pat rep s : string) :
  replace_first pat rep (pat ++ s)%string = (rep ++ s)%string.
Proof.
  assert (E : forall x, replace_first pat rep x =
    if starts_with pat x then (rep ++ substring (String.length pat) (String.length x) x)%string
    else match x with
         | EmptyString => EmptyString
         | String c s' => String c (replace_first pat rep s')
         end) by (intros []; reflexivity).
  rewrite E, starts_with_app, substring_after; [done | apply length_app_ge].
Qed.

Lemma bearer_token_prefix tok : bearer_token (Some ("Bearer " ++ tok)%string) = Some tok.
Proof. unfold bearer_token. cbv delta [option_map] beta iota. by rewrite replace_first_prefix. Qed.

Lemma js_get_own {A} pol (m : gmap string A) k v : m !! k = Some v -> js_get pol m k = JOwn v.
Proof. intros H. unfold js_get. by rewrite H. Qed.

Lemma js_get_proto {A} pol (m : gmap string A) k :
  m !! k = None -> In k proto_keys -> js_get pol m k = JInherited.
Proof.
  intros H Hin. unfold js_get. rewrite H.
  assert (E : existsb (String.eqb k) proto_keys = true).
  { apply existsb_exists. exists k. split; [done | apply String.eqb_refl]. }
  by rewrite E.
Qed.

Lemma js_get_plain {A} (m : gmap string A) k :
  m !! k = None -> existsb (String.eqb k) proto_keys = false -> js_get None m k = JMissing.
Proof. intros H E. unfold js_get. by rewrite H, E. Qed.

Lemma api_login_success hashPassword now tok u p a r a1 :
  api_login hashPassword now tok (Some u) (Some p) a = (r, a1) -> status r = 200 ->
  exists user, users a !! u = Some user /\ passwordHash user = hashPassword p /\
    a1 = mkAuth (users a) (<[tok := mkWebLogin u (u_isAdmin user) now now]> (webSessions a))
           (proto_lastAccessed a).
Proof.
  unfold api_login. cbn [js_falsy default]. unfold id. intros E Hs.
  destruct (String.eqb u "" || String.eqb p ""); [injection E as <- _; discriminate |].
  unfold js_get in E.
  destruct (users a !! u) as [user|] eqn:Eu; cbv beta iota in E.
  - destruct (String.eqb_spec (passwordHash user) (hashPassword p)) as [Hh|Hh];
      injection E as <- <-; [| discriminate].
    by exists user.
  - destruct (_ || _); injection E as <- _; discriminate.
Qed.

Lemma validate_own_fresh now tok w b :
  tok <> "" -> webSessions b !! tok = Some w -> now - wl_created w <= web_day ->
  validate_web_session now (Some ("Bearer " ++ tok)%string) b
    = (inr (PLogin tok (mkWebLogin (wl_username w) (wl_isAdmin w) (wl_created w) now)),
       mkAuth (users b)
         (<[tok := mkWebLogin (wl_username w) (wl_isAdmin w) (wl_created w) now]> (webSessions b))
         (proto_lastAccessed b)).
Proof.
  intros Ht Hw Hd. unfold validate_web_session. rewrite bearer_token_prefix.
  rewrite (js_falsy_some_nonempty tok Ht). cbn [default].
  rewrite (js_get_own _ _ _ _ Hw).
  destruct (Z.ltb_spec web_day (now - wl_created w)); [exfalso; lia | reflexivity].
Qed.

Lemma validate_own_expired now tok w b :
  tok <> "" -> webSessions b !! tok = Some w -> web_day < now - wl_created w ->
  validate_web_session now (Some ("Bearer " ++ tok)%string) b
    = (inl (json_error 401 "Session expired"),
       mkAuth (users b) (delete tok (webSessions b)) (proto_lastAccessed b)).
Proof.
  intros Ht Hw Hd. unfold validate_web_session. rewrite bearer_token_prefix.
  rewrite (js_falsy_some_nonempty tok Ht). cbn [default].
  rewrite (js_get_own _ _ _ _ Hw).
  destruct (Z.ltb_spec web_day (now - wl_created w)); [reflexivity | exfalso; lia].
Qed.

Lemma latin1_to_utf8_ascii h : ascii_only h = true -> latin1_to_utf8 h = h.
Proof.
  induction h as [|c h IH]; cbn [ascii_only latin1_to_utf8]; [done |].
  intros [Hc Hh]%andb_true_iff. rewrite Hc. f_equal. by apply IH.
Qed.

Lemma latin1_to_utf8_ascii_inv h k :
  latin1_to_utf8 h = k -> ascii_only k = true -> h = k.
Proof.
  revert k. induction h as [|c h IH]; intros k E Hk; cbn [latin1_to_utf8] in E; [done |].
  destruct (Nat.ltb_spec (Ascii.nat_of_ascii c) 128) as [Hc|Hc].
  - subst k. cbn [ascii_only] in Hk. apply andb_true_iff in Hk as [_ Hk].
    f_equal. by apply IH.
  - subst k. cbn [ascii_only] in Hk. apply andb_true_iff in Hk as [Hk _].
    apply Nat.ltb_lt in Hk.
    assert (Hb := Ascii.nat_ascii_bounded c).
    assert (Hq : (Ascii.nat_of_ascii c / 64 < 4)%nat)
      by (apply Nat.Div0.div_lt_upper_bound; lia).
    remember (Ascii.nat_of_ascii c / 64)%nat as q eqn:Eq.
    rewrite Ascii.nat_ascii_embedding in Hk by lia. lia.
Qed.

Lemma validate_fold_keeps now0 tok u times b :
  tok <> "" ->
  Forall (fun t' => t' - now0 <= web_day) times ->
  (exists w, webSessions b !! tok = Some w /\ wl_username w = u /\ wl_created w = now0) ->
  exists w, webSessions (fold_left (fun b t' =>
                (validate_web_session t' (Some ("Bearer " ++ tok)%string) b).2) times b) !! tok = Some w
            /\ wl_username w = u /\ wl_created w = now0.
Proof.
  intros Ht. revert b. induction times as [|t' ts IH]; intros b Hall Hw; simpl; [done |].
  apply Forall_cons in Hall as [Ht' Hall]. apply IH; [done |].
  destruct Hw as (w & Hw & Hu & Hc).
  rewrite (validate_own_fresh t' tok w b Ht Hw) by lia. simpl.
  eexists. rewrite lookup_insert_eq. split; [reflexivity | done].
Qed.

Lemma proto_key_nonempty k : In k proto_keys -> k <> "".
Proof. unfold proto_keys. simpl. intros H; repeat destruct H as [<-|H]; try discriminate; done. Qed.

(** Extra X1: registering a name that is free (neither an account nor a
    property inherited from [Object.prototype]) answers 201 and stores the
    account with the hashed password, as an admin exactly when [adminKey]
    equals [API_KEY]; logging in with the same name and password then
    answers the fresh token and stores a web session created now. *)
Theorem register_then_login hashPassword API_KEY a u p adminKey now tok r1 a1 r2 a2 :
  u <> "" -> p <> "" -> js_get (proto_lastAccessed a) (users a) u = JMissing ->
  api_register hashPassword API_KEY (Some u) (Some p) adminKey a = (r1, a1) ->
  api_login hashPassword now tok (Some u) (Some p) a1 = (r2, a2) ->
  let adm := match adminKey with Some k => String.eqb k API_KEY | None => false end in
  status r1 = 201 /\ users a1 !! u = Some (mkUser u (hashPassword p) adm) /\
  r2 = json [("token", JStr tok); ("username", JStr u); ("isAdmin", JBool adm)] /\
  webSessions a2 !! tok = Some (mkWebLogin u adm now now).
Proof.
  intros Hu Hp Hm E1 E2 adm.
  unfold api_register in E1. cbn [js_falsy default] in E1. unfold id in E1.
  rewrite (proj2 (String.eqb_neq u "") Hu), (proj2 (String.eqb_neq p "") Hp) in E1.
  cbn [orb] in E1. rewrite Hm in E1. injection E1 as <- <-.
  unfold api_login in E2. cbn [js_falsy default] in E2. unfold id in E2.
  rewrite (proj2 (String.eqb_neq u "") Hu), (proj2 (String.eqb_neq p "") Hp) in E2.
  cbn [orb users proto_lastAccessed webSessions] in E2.
  rewrite (js_get_own _ _ u (mkUser u (hashPassword p) adm)) in E2 by apply lookup_insert_eq.
  cbn [passwordHash u_isAdmin] in E2. rewrite String.eqb_refl in E2.
  injection E2 as <- <-. cbn.
  split; [done | split; [apply lookup_insert_eq | split; [done | apply lookup_insert_eq]]].
Qed.

Lemma register_then_login_witness :
  let a1 := (api_register (fun p => p) "k" (Some "bob") (Some "pw") (Some "k") init_auth).2 in
  status (api_register (fun p => p) "k" (Some "bob") (Some "pw") (Some "k") init_auth).1 = 201 /\
  webSessions (api_login (fun p => p) 7 "t1" (Some "bob") (Some "pw") a1).2 !! "t1"
    = Some (mkWebLogin "bob" true 7 7).
Proof.
  pose proof (register_then_login (fun p => p) "k" init_auth "bob" "pw" (Some "k") 7 "t1"
    (api_register (fun p => p) "k" (Some "bob") (Some "pw") (Some "k") init_auth).1
    (api_register (fun p => p) "k" (Some "bob") (Some "pw") (Some "k") init_auth).2
    (api_login (fun p => p) 7 "t1" (Some "bob") (Some "pw")
       (api_register (fun p => p) "k" (Some "bob") (Some "pw") (Some "k") init_auth).2).1
    (api_login (fun p => p) 7 "t1" (Some "bob") (Some "pw")
       (api_register (fun p => p) "k" (Some "bob") (Some "pw") (Some "k") init_auth).2).2
    ltac:(discriminate) ltac:(discriminate) eq_refl eq_refl eq_refl) as H.
  destruct H as (Hs & _ & _ & Hw). split; [exact Hs | exact Hw].
Defined.

Lemma existsb_proto_false k : ~ In k proto_keys -> existsb (String.eqb k) proto_keys = false.
Proof.
  intros Hn. destruct (existsb (String.eqb k) proto_keys) eqn:E; [| done].
  apply existsb_exists in E as (x & Hx & Heq). apply String.eqb_eq in Heq. subst. done.
Qed.

(** Extra X2: registering a name that is already an account, or that names
    a property every object inherits from [Object.prototype] (such as
    ["constructor"]), answers 409 "Username already exists" and changes
    nothing. *)
Theorem register_taken_refused hashPassword API_KEY u p adminKey a :
  u <> "" -> p <> "" -> (is_Some (users a !! u) \/ In u proto_keys) ->
  api_register hashPassword API_KEY (Some u) (Some p) adminKey a
    = (json_error 409 "Username already exists", a).
Proof.
  intros Hu Hp Ht. unfold api_register. cbn [js_falsy default]. unfold id.
  rewrite (proj2 (String.eqb_neq u "") Hu), (proj2 (String.eqb_neq p "") Hp). cbn [orb].
  destruct (users a !! u) as [user|] eqn:E.
  - by rewrite (js_get_own _ _ _ _ E).
  - destruct Ht as [[x Hx]|Hin]; [congruence |]. by rewrite (js_get_proto _ _ _ E Hin).
Qed.

Lemma register_taken_refused_witness :
  api_register (fun p => p) "k" (Some "constructor") (Some "pw") None init_auth
    = (json_error 409 "Username already exists", init_auth).
Proof.
  apply register_taken_refused; [discriminate | discriminate |].
  right. simpl. auto.
Defined.

(** Extra X3: a login answers 200 exactly when both fields are non-empty
    and [users] has an own account of that name whose stored hash is the
    hash of the password; every other answer leaves the state unchanged. *)
Theorem login_ok_iff_hash_matches hashPassword now tok u p a :
  (status (api_login hashPassword now tok (Some u) (Some p) a).1 = 200 <->
     u <> "" /\ p <> "" /\
     exists user, users a !! u = Some user /\ passwordHash user = hashPassword p) /\
  (status (api_login hashPassword now tok (Some u) (Some p) a).1 <> 200 ->
     (api_login hashPassword now tok (Some u) (Some p) a).2 = a).
Proof.
  unfold api_login. cbn [js_falsy default]. unfold id.
  destruct (String.eqb_spec u "") as [Hu|Hu]; cbn [orb].
  { cbn. split; [split; [discriminate | intros (? & _); done] | done]. }
  destruct (String.eqb_spec p "") as [Hp|Hp]; cbn [orb].
  { cbn. split; [split; [discriminate | intros (_ & ? & _); done] | done]. }
  unfold js_get. destruct (users a !! u) as [user|] eqn:E; cbv beta iota.
  - destruct (String.eqb_spec (passwordHash user) (hashPassword p)) as [Hh|Hh]; cbn.
    + split; [split; [intros _; eauto | done] | done].
    + split; [split; [discriminate | intros (_ & _ & user' & Hu' & Hh'); congruence] | done].
  - destruct (_ || _); cbn;
      (split; [split; [discriminate | intros (_ & _ & user' & Hu' & _); congruence] | done]).
Qed.

(** Extra X4: after a successful login, every validation of the token
    within a day of the login is accepted, keeps the login's user name and
    creation time and refreshes [lastAccessed]; whatever such validations
    came before, the first validation more than a day after the login
    answers 401 "Session expired" and deletes the token. *)
Theorem web_login_lasts_one_day hashPassword now0 tok u p a r a1 times :
  tok <> "" ->
  api_login hashPassword now0 tok (Some u) (Some p) a = (r, a1) -> status r = 200 ->
  Forall (fun t' => t' - now0 <= web_day) times ->
  let a2 := fold_left (fun b t' =>
              (validate_web_session t' (Some ("Bearer " ++ tok)%string) b).2) times a1 in
  (forall t, t - now0 <= web_day ->
     exists w b, validate_web_session t (Some ("Bearer " ++ tok)%string) a2 = (inr (PLogin tok w), b)
       /\ wl_username w = u /\ wl_created w = now0 /\ wl_lastAccessed w = t) /\
  (forall t, web_day < t - now0 ->
     validate_web_session t (Some ("Bearer " ++ tok)%string) a2
       = (inl (json_error 401 "Session expired"),
          mkAuth (users a2) (delete tok (webSessions a2)) (proto_lastAccessed a2))).
Proof.
  intros Ht E Hs Hall a2.
  destruct (api_login_success _ _ _ _ _ _ _ _ E Hs) as (user & _ & _ & ->).
  assert (Hk : exists w, webSessions a2 !! tok = Some w /\ wl_username w = u /\ wl_created w = now0).
  { unfold a2. apply validate_fold_keeps; [done | done |].
    eexists. cbn [webSessions]. rewrite lookup_insert_eq. split; [reflexivity | done]. }
  destruct Hk as (w & Hw & Hwu & Hwc). split.
  - intros t Hd. rewrite (validate_own_fresh t tok w a2 Ht Hw) by lia.
    do 2 eexists. split; [reflexivity |]. cbn. done.
  - intros t Hd. apply (validate_own_expired t tok w a2); [done | done | lia].
Qed.

Definition bob_auth : Auth := mkAuth {[ "bob" := mkUser "bob" "pw" false ]} ∅ None.

Lemma web_login_lasts_one_day_witness :
  let a2 := fold_left (fun b t' =>
              (validate_web_session t' (Some ("Bearer " ++ "t")%string) b).2) [1000; 2000]
              (api_login (fun p => p) 0 "t" (Some "bob") (Some "pw") bob_auth).2 in
  validate_web_session (web_day + 1) (Some ("Bearer " ++ "t")%string) a2
    = (inl (json_error 401 "Session expired"),
       mkAuth (users a2) (delete "t" (webSessions a2)) (proto_lastAccessed a2)).
Proof.
  pose proof (web_login_lasts_one_day (fun p => p) 0 "t" "bob" "pw" bob_auth
    (api_login (fun p => p) 0 "t" (Some "bob") (Some "pw") bob_auth).1
    (api_login (fun p => p) 0 "t" (Some "bob") (Some "pw") bob_auth).2 [1000; 2000]
    ltac:(discriminate) eq_refl eq_refl
    ltac:(repeat constructor; unfold web_day; lia)) as H.
  destruct H as [_ H]. apply H. unfold web_day. lia.
Defined.

(** Extra X5: logging out with a valid login token answers "Logged out
    successfully" and deletes exactly that token; any later validation of
    the same token answers 401 "Authentication required" (for a token that
    is not an [Object.prototype] property name). *)
Theorem logout_ends_login now now' tok w a r a' :
  tok <> "" -> ~ In tok proto_keys -> tok <> "lastAccessed" ->
  webSessions a !! tok = Some w -> now - wl_created w <= web_day ->
  api_logout now (Some ("Bearer " ++ tok)%string) a = (r, a') ->
  r = json [("message", JStr "Logged out successfully")] /\ users a' = users a /\
  webSessions a' = delete tok (webSessions a) /\
  validate_web_session now' (Some ("Bearer " ++ tok)%string) a' = (inl auth_required, a').
Proof.
  intros Ht Hp Hl Hw Hd E. unfold api_logout in E.
  rewrite (validate_own_fresh now tok w a Ht Hw Hd) in E. cbv beta iota in E.
  rewrite bearer_token_prefix, (js_falsy_some_nonempty tok Ht) in E. cbn [default] in E.
  cbn [webSessions proto_lastAccessed users] in E.
  rewrite (js_get_own _ _ tok _ (lookup_insert_eq _ _ _)) in E. cbv beta iota in E.
  injection E as <- <-. cbn [users webSessions proto_lastAccessed].
  rewrite delete_insert_eq. split; [done | split; [done | split; [done |]]].
  unfold validate_web_session. rewrite bearer_token_prefix, (js_falsy_some_nonempty tok Ht).
  cbn [default webSessions proto_lastAccessed]. unfold id, js_get.
  rewrite lookup_delete_eq, (existsb_proto_false tok Hp), (proj2 (String.eqb_neq _ _) Hl).
  rewrite andb_false_r. reflexivity.
Qed.

Definition bob_login : Auth :=
  mkAuth (users bob_auth) {[ "t" := mkWebLogin "bob" false 0 0 ]} None.

Lemma logout_ends_login_witness :
  validate_web_session 5 (Some ("Bearer " ++ "t")%string)
    (api_logout 1 (Some ("Bearer " ++ "t")%string) bob_login).2
  = (inl auth_required, (api_logout 1 (Some ("Bearer " ++ "t")%string) bob_login).2).
Proof.
  refine (proj2 (proj2 (proj2 (logout_ends_login 1 5 "t" (mkWebLogin "bob" false 0 0) bob_login
    (api_logout 1 (Some ("Bearer " ++ "t")%string) bob_login).1
    (api_logout 1 (Some ("Bearer " ++ "t")%string) bob_login).2
    ltac:(discriminate) _ ltac:(discriminate) eq_refl _ eq_refl)))).
  - unfold proto_keys. simpl. intros H; repeat destruct H as [H|H]; try discriminate; done.
  - cbn [wl_created]. unfold web_day. lia.
Defined.

Lemma js_get_own_inv {A} pol (m : gmap string A) k v : js_get pol m k = JOwn v -> m !! k = Some v.
Proof. unfold js_get. destruct (m !! k); [congruence |]. by destruct (_ || _). Qed.

Lemma validate_proto now k a :
  In k proto_keys -> webSessions a !! k = None ->
  validate_web_session now (Some ("Bearer " ++ k)%string) a
    = (inr (PInherited k),
       if String.eqb k "__proto__" then mkAuth (users a) (webSessions a) (Some now) else a).
Proof.
  intros Hin Hn. unfold validate_web_session.
  rewrite bearer_token_prefix, (js_falsy_some_nonempty k (proto_key_nonempty k Hin)).
  cbn [default]. unfold id. by rewrite (js_get_proto _ _ _ Hn Hin).
Qed.

(** Extra X6: a bearer token that names an [Object.prototype] property
    (such as ["constructor"] or ["toString"]) and is not an own key of
    [webSessions] passes [validateWebSession] without any login, leaving
    the accounts and the logins as they are; logging out with it answers
    "Logged out successfully" and removes no login. *)
Theorem proto_token_passes_validation now k a :
  In k proto_keys -> webSessions a !! k = None ->
  (exists b, validate_web_session now (Some ("Bearer " ++ k)%string) a = (inr (PInherited k), b)
     /\ users b = users a /\ webSessions b = webSessions a) /\
  (api_logout now (Some ("Bearer " ++ k)%string) a).1
    = json [("message", JStr "Logged out successfully")] /\
  webSessions (api_logout now (Some ("Bearer " ++ k)%string) a).2 = webSessions a.
Proof.
  intros Hin Hn. assert (V := validate_proto now k a Hin Hn). split.
  { eexists. split; [exact V |]. by destruct (String.eqb k "__proto__"). }
  unfold api_logout. rewrite V. cbv beta iota.
  rewrite bearer_token_prefix, (js_falsy_some_nonempty k (proto_key_nonempty k Hin)).
  cbn [default]. unfold id.
  destruct (String.eqb k "__proto__"); cbn [webSessions proto_lastAccessed users];
    rewrite (js_get_proto _ _ _ Hn Hin); cbn; (split; [done | by rewrite delete_id]).
Qed.

Lemma proto_token_passes_validation_witness :
  (api_logout 0 (Some ("Bearer " ++ "constructor")%string) init_auth).1
    = json [("message", JStr "Logged out successfully")].
Proof.
  refine (proj1 (proj2 (proto_token_passes_validation 0 "constructor" init_auth _ eq_refl))).
  simpl. auto.
Defined.

(** Extra X7: validating the token ["__proto__"] writes [lastAccessed = now]
    on [Object.prototype]: before it, the user name ["lastAccessed"] can be
    registered (201); after it, although the accounts and logins are
    unchanged, registering that name answers 409 "Username already exists"
    whenever [now] is non-zero (a truthy timestamp), and still 201 at
    [now = 0] (a falsy one). *)
Theorem proto_token_blocks_lastAccessed hashPassword API_KEY now p adminKey a :
  p <> "" -> proto_truthy (proto_lastAccessed a) = false ->
  users a !! "lastAccessed" = None -> webSessions a !! "__proto__" = None ->
  status (api_register hashPassword API_KEY (Some "lastAccessed") (Some p) adminKey a).1 = 201 /\
  let a1 := (validate_web_session now (Some ("Bearer " ++ "__proto__")%string) a).2 in
  users a1 = users a /\ webSessions a1 = webSessions a /\ proto_lastAccessed a1 = Some now /\
  (now <> 0 ->
     api_register hashPassword API_KEY (Some "lastAccessed") (Some p) adminKey a1
       = (json_error 409 "Username already exists", a1)) /\
  (now = 0 ->
     status (api_register hashPassword API_KEY (Some "lastAccessed") (Some p) adminKey a1).1
       = 201).
Proof.
  intros Hp Hpol Hu Hn.
  assert (Hin : In "__proto__" proto_keys) by (simpl; auto).
  assert (V := validate_proto now "__proto__" a Hin Hn).
  rewrite String.eqb_refl in V. rewrite V. cbn [snd users webSessions proto_lastAccessed].
  unfold api_register. cbn [js_falsy default]. unfold id.
  rewrite (proj2 (String.eqb_neq p "") Hp).
  change (String.eqb "lastAccessed" "") with false. cbn [orb users proto_lastAccessed].
  unfold js_get. rewrite Hu, Hpol.
  change (existsb (String.eqb "lastAccessed") proto_keys) with false.
  split; [reflexivity |]. split; [reflexivity |]. split; [reflexivity |].
  split; [reflexivity |]. split.
  - intros Hnz. cbn [proto_truthy]. rewrite (proj2 (Z.eqb_neq now 0) Hnz). reflexivity.
  - intros ->. reflexivity.
Qed.

Lemma proto_token_blocks_lastAccessed_witness :
  api_register (fun p => p) "k" (Some "lastAccessed") (Some "pw") None
    (validate_web_session 5 (Some ("Bearer " ++ "__proto__")%string) bob_auth).2
  = (json_error 409 "Username already exists",
     (validate_web_session 5 (Some ("Bearer " ++ "__proto__")%string) bob_auth).2).
Proof.
  refine (proj1 (proj2 (proj2 (proj2 (proj2 (proto_token_blocks_lastAccessed (fun p => p) "k" 5
    "pw" None bob_auth ltac:(discriminate) eq_refl eq_refl eq_refl))))) _).
  discriminate.
Defined.

(** Extra X8: the periodic sweep keeps exactly the logins created at most a
    day ago and leaves the accounts alone, so a validation right after it
    never answers "Session expired". *)
Theorem web_sweep_keeps_recent now a :
  (forall tok w, webSessions (web_sweep now a) !! tok = Some w <->
     webSessions a !! tok = Some w /\ now - wl_created w <= web_day) /\
  users (web_sweep now a) = users a /\
  forall authz, (validate_web_session now authz (web_sweep now a)).1
                  <> inl (json_error 401 "Session expired").
Proof.
  assert (Hk : forall tok w, webSessions (web_sweep now a) !! tok = Some w <->
     webSessions a !! tok = Some w /\ now - wl_created w <= web_day).
  { intros tok w. unfold web_sweep. cbn [webSessions].
    rewrite map_lookup_filter_Some. cbn [snd]. by rewrite Z.leb_le. }
  split; [exact Hk | split; [reflexivity |]].
  intros authz. unfold validate_web_session.
  destruct (js_falsy (bearer_token authz)); [discriminate |].
  destruct (js_get _ _ _) as [w| |] eqn:E; cbn [fst]; [| discriminate | discriminate].
  apply js_get_own_inv, Hk in E as [_ Hd].
  destruct (Z.ltb_spec web_day (now - wl_created w)); [lia | discriminate].
Qed.

(** Extra X9: with a non-empty [API_KEY], [authenticate] lets a request
    through exactly when the UTF-8 encoding of its [x-api-key] header is
    [API_KEY]; for a key of ASCII characters, exactly when the header is
    the key itself. *)
Theorem authenticate_accepts_only_the_key API_KEY h :
  API_KEY <> "" ->
  (authenticate API_KEY (Some h) = None <-> latin1_to_utf8 h = API_KEY) /\
  (ascii_only API_KEY = true -> (authenticate API_KEY (Some h) = None <-> h = API_KEY)).
Proof.
  intros Hk.
  assert (H1 : authenticate API_KEY (Some h) = None <-> latin1_to_utf8 h = API_KEY).
  { unfold authenticate. cbn [js_falsy default]. unfold id.
    destruct (String.eqb_spec h "") as [->|Hh]; cbn [negb].
    { split; [discriminate | intros E; cbn in E; congruence]. }
    destruct (Nat.eqb_spec (String.length (latin1_to_utf8 h)) (String.length API_KEY)) as [Hl|Hl];
      cbn [negb].
    - destruct (String.eqb_spec (latin1_to_utf8 h) API_KEY); split; congruence.
    - split; [discriminate | intros E; rewrite E in Hl; done]. }
  split; [exact H1 |]. intros Ha. rewrite H1. split.
  - intros E. exact (latin1_to_utf8_ascii_inv h API_KEY E Ha).
  - intros ->. by apply latin1_to_utf8_ascii.
Qed.

Lemma authenticate_accepts_only_the_key_witness :
  authenticate "change-this-in-production" (Some "change-this-in-production") = None.
Proof.
  apply (proj2 (authenticate_accepts_only_the_key "change-this-in-production"
                  "change-this-in-production" ltac:(discriminate)) eq_refl).
  reflexivity.
Defined.

(** ** Terminal sessions: round trips and sweeps *)

Lemma js_str_eqb_refl a : js_str_eqb a a = true.
Proof. destruct a; cbn; [apply String.eqb_refl | done]. Qed.

Lemma js_str_eqb_spec a b : js_str_eqb a b = true <-> a = b.
Proof.
  destruct a as [x|], b as [y|]; cbn; try (split; congruence).
  rewrite String.eqb_eq. split; congruence.
Qed.

Lemma js_str_eqb_neq a b : a <> b -> js_str_eqb a b = false.
Proof. intros H. destruct (js_str_eqb a b) eqn:E; [apply js_str_eqb_spec in E; done | done]. Qed.

Lemma create_check_below cfg st :
  containerCount st < MAX_CONTAINERS cfg -> create_check cfg st = None.
Proof.
  intros H. unfold create_check.
  destruct (Z.leb_spec (MAX_CONTAINERS cfg) (containerCount st)); [lia | done].
Qed.

(** Extra X11: a [POST /api/create-session] below capacity whose container
    is created (or that falls back to mock mode) adds one to
    [containerCount]; right after it, [GET /api/session/:id] by the same web
    user shows the session with the full timeout left, and any other
    non-admin web user gets 403. *)
Theorem create_then_get_session cfg now env ws sid uuid mockUuid ip name st :
  containerCount st < MAX_CONTAINERS cfg ->
  match env_create env with Ok _ => True | Err m => includes m docker_sock_enoent = true end ->
  let st' := (run_request cfg now env (ApiCreateSession ws sid uuid mockUuid ip name) st).2 in
  containerCount st' = containerCount st + 1 /\
  api_get_session cfg (env_now env) ws sid st'
    = json [("id", JStr sid); ("userId", JStr (js_or_str (username ws) uuid));
            ("created", JStr (toISOString (env_now env)));
            ("lastAccessed", JStr (toISOString (env_now env)));
            ("expiresIn", JNum (SESSION_TIMEOUT cfg))] /\
  (forall ws', isAdmin ws' = false -> username ws' <> username ws ->
     api_get_session cfg (env_now env) ws' sid st'
       = json_error 403 "You can only view your own sessions").
Proof.
  intros Hc Hok st'. unfold st', run_request. cbn [begin_request].
  rewrite (create_check_below cfg st Hc). cbn [resolve_all resolve]. unfold api_create_finish.
  destruct (env_create env) as [cid|m]; [| rewrite Hok]; cbn [snd fst containerCount sessions];
    (split; [reflexivity |]); unfold api_get_session; cbn [sessions]; rewrite lookup_insert_eq;
    unfold forbidden; cbn [webUser userId created lastAccessed];
    (split; [rewrite js_str_eqb_refl; cbn [negb andb]; by rewrite Z.sub_diag, Z.sub_0_r |]);
    intros ws' Ha Hu; rewrite Ha, (js_str_eqb_neq _ _ (not_eq_sym Hu)); reflexivity.
Qed.

Lemma create_then_get_session_witness :
  api_get_session ex_cfg 1000 bob "s1" st_one = json_error 403 "You can only view your own sessions".
Proof.
  exact (proj2 (proj2 (create_then_get_session ex_cfg 0 env_up alice "s1" "u1" "m1" "10.0.0.1"
    None init_server ltac:(simpl; lia) I)) bob eq_refl ltac:(discriminate)).
Defined.

Lemma api_create_ok cfg now env ws sid uuid mockUuid ip name st :
  containerCount st < MAX_CONTAINERS cfg ->
  match env_create env with Ok _ => True | Err m => includes m docker_sock_enoent = true end ->
  exists cid mock,
    (run_request cfg now env (ApiCreateSession ws sid uuid mockUuid ip name) st).2
    = mkServer (<[sid := mkSession (js_or_str (username ws) uuid) ip cid
                          (env_now env) (env_now env) (username ws)
                          (Some (js_or_str name ("Session-" ++ substring 0 8 sid)%string))
                          mock (Some 0) (Some [])]> (sessions st))
        (containerCount st + 1).
Proof.
  intros Hc Hok. unfold run_request. cbn [begin_request].
  rewrite (create_check_below cfg st Hc). cbn [resolve_all resolve]. unfold api_create_finish.
  destruct (env_create env) as [cid|m]; [| rewrite Hok]; cbn [snd]; eauto.
Qed.

(** Extra X12: creating a session through [POST /api/create-session] under a
    fresh id and then terminating it with [DELETE /api/session/:id] (the
    container stopped and removed) gives back exactly the server state from
    before the creation. *)
Theorem create_then_delete_restores cfg now now' env env' ws sid uuid mockUuid ip name st :
  containerCount st < MAX_CONTAINERS cfg -> sessions st !! sid = None ->
  match env_create env with Ok _ => True | Err m => includes m docker_sock_enoent = true end ->
  env_cleanup env' sid = Ok tt ->
  run_request cfg now' env' (ApiDeleteSession ws sid)
    (run_request cfg now env (ApiCreateSession ws sid uuid mockUuid ip name) st).2
  = (Some terminated, st).
Proof.
  intros Hc Hn Hok Hcl.
  destruct (api_create_ok cfg now env ws sid uuid mockUuid ip name st Hc Hok) as (cid & mock & ->).
  unfold run_request. cbn [begin_request sessions]. rewrite lookup_insert_eq.
  unfold forbidden. cbn [webUser]. rewrite js_str_eqb_refl. cbn [negb andb].
  unfold cleanup_spawn. cbn [sessions]. rewrite lookup_insert_eq.
  cbn [resolve_all resolve]. rewrite Hcl. cbn [cleanup_finish sessions containerCount].
  rewrite delete_insert_id by exact Hn. destruct st as [m c]. do 2 f_equal. cbn. lia.
Qed.

Lemma create_then_delete_restores_witness :
  run_request ex_cfg 5 env_up (ApiDeleteSession alice "s1") st_one = (Some terminated, init_server).
Proof.
  exact (create_then_delete_restores ex_cfg 0 5 env_up env_up alice "s1" "u1" "m1" "10.0.0.1" None
    init_server ltac:(simpl; lia) eq_refl I eq_refl).
Defined.




Lemma find_by_userId_Some dev st fid :
  find_by_userId dev st = Some fid -> exists s, sessions st !! fid = Some s /\ userId s = dev.
Proof.
  unfold find_by_userId.
  destruct (List.find _ _) as [[k s]|] eqn:E; cbn; [intros [= <-] | discriminate].
  apply find_some in E as [Hin Heq]. exists s. cbn in Heq.
  split; [apply elem_of_map_to_list, list_elem_of_In, Hin | by apply String.eqb_eq].
Qed.

Lemma find_by_userId_None dev st :
  find_by_userId dev st = None <-> forall k s, sessions st !! k = Some s -> userId s <> dev.
Proof.
  unfold find_by_userId. destruct (List.find _ _) as [[k s]|] eqn:E; cbn.
  - split; [discriminate |]. intros H. apply find_some in E as [Hin Heq].
    cbn in Heq. apply String.eqb_eq in Heq.
    exfalso. refine (H k s _ Heq). apply elem_of_map_to_list, list_elem_of_In, Hin.
  - split; [| done]. intros _ k s' Hk Hu.
    assert (Hin : In (k, s') (map_to_list (sessions st)))
      by apply list_elem_of_In, elem_of_map_to_list, Hk.
    pose proof (find_none _ _ E _ Hin) as Hf. cbn in Hf.
    rewrite Hu, String.eqb_refl in Hf. discriminate.
Qed.

(** Extra X14: [POST /execute-command-legacy] with a command, for a device
    that already has a session (one whose [userId] is the device id), runs
    the command in that session and refreshes its [lastAccessed]: it never
    checks the session's idle time and never consults [containerCount], so
    an idle session is revived even when the server is at capacity. *)
Theorem legacy_exec_reuses_device_session cfg now env dev cmd sid ip st :
  cmd <> "" -> (exists k s, sessions st !! k = Some s /\ userId s = dev) ->
  exists fid s, sessions st !! fid = Some s /\ userId s = dev /\
    run_request cfg now env (ExecuteCommandLegacy dev (Some cmd) sid ip) st
      = (Some (plain_exec_response (env_exec env)),
         mkServer (<[fid := set_lastAccessed now s]> (sessions st)) (containerCount st)).
Proof.
  intros Hc (k & s & Hk & Hu). unfold run_request. cbn [begin_request].
  rewrite (js_falsy_some_nonempty cmd Hc). cbn [negb].
  destruct (find_by_userId dev st) as [fid|] eqn:E.
  - destruct (find_by_userId_Some dev st fid E) as (s' & Hs' & Hu').
    exists fid, s'. split; [done | split; [done |]].
    unfold update_session. rewrite Hs'. reflexivity.
  - exfalso. exact (proj1 (find_by_userId_None dev st) E k s Hk Hu).
Qed.

Lemma legacy_exec_reuses_device_session_witness :
  exists fid s, sessions st_real !! fid = Some s /\ userId s = "alice" /\
    run_request ex_cfg late env_up (ExecuteCommandLegacy "alice" (Some "ls") "s9" "10.0.0.2") st_real
      = (Some (plain_exec_response (env_exec env_up)),
         mkServer (<[fid := set_lastAccessed late s]> (sessions st_real)) (containerCount st_real)).
Proof.
  apply legacy_exec_reuses_device_session; [discriminate |].
  exists "s1", real_s. split; reflexivity.
Defined.

(** Extra X15: [POST /execute-command-legacy] with a command, for a device
    with no session, answers 503 and changes nothing when [containerCount]
    is at [MAX_CONTAINERS]; below it, once the container is created, it
    stores a new session for the device under the fresh id, adds one to
    [containerCount] and answers with the command's result. *)
Theorem legacy_exec_new_device cfg now env dev cmd sid ip st :
  cmd <> "" -> (forall k s, sessions st !! k = Some s -> userId s <> dev) ->
  (MAX_CONTAINERS cfg <= containerCount st ->
     run_request cfg now env (ExecuteCommandLegacy dev (Some cmd) sid ip) st
       = (Some capacity_exceeded, st)) /\
  (containerCount st < MAX_CONTAINERS cfg -> forall cid, env_create env = Ok cid ->
     run_request cfg now env (ExecuteCommandLegacy dev (Some cmd) sid ip) st
       = (Some (plain_exec_response (env_exec env)),
          mkServer (<[sid := mkSession dev ip cid (env_now env) (env_now env) None None false None None]>
                      (sessions st)) (containerCount st + 1))).
Proof.
  intros Hc Hn. apply find_by_userId_None in Hn.
  unfold run_request. cbn [begin_request].
  rewrite (js_falsy_some_nonempty cmd Hc). cbn [negb]. rewrite Hn. split.
  - intros Hge. unfold create_check.
    destruct (Z.leb_spec (MAX_CONTAINERS cfg) (containerCount st)); [reflexivity | lia].
  - intros Hlt cid Hcid. rewrite (create_check_below cfg st Hlt).
    cbn [resolve_all resolve]. unfold legacy_exec_create_finish. rewrite Hcid.
    unfold update_session. cbn [sessions containerCount]. rewrite lookup_insert_eq.
    cbn [snd fst]. rewrite insert_insert_eq. reflexivity.
Qed.

Lemma legacy_exec_new_device_witness :
  run_request ex_cfg 5 env_up (ExecuteCommandLegacy "bob" (Some "ls") "s9" "10.0.0.2") st_real
    = (Some capacity_exceeded, st_real).
Proof.
  apply (legacy_exec_new_device ex_cfg 5 env_up "bob" "ls" "s9" "10.0.0.2" st_real);
    [discriminate | | simpl; lia].
  intros k s Hk. unfold st_real in Hk. cbn [sessions] in Hk.
  apply lookup_singleton_Some in Hk as [_ <-]. discriminate.
Defined.

Lemma validate_session_ok cfg now sid s st :
  sid <> "" -> sessions st !! sid = Some s -> is_expired cfg now s = false ->
  validate_session cfg now (Some sid) st
    = (inr sid, mkServer (<[sid := set_lastAccessed now s]> (sessions st)) (containerCount st), []).
Proof.
  intros Hn Hs He. unfold validate_session. rewrite (js_falsy_some_nonempty sid Hn).
  cbn [default]. unfold id. rewrite Hs, He. unfold update_session. by rewrite Hs.
Qed.

(** Extra X16: [GET /session] with the id of a live session refreshes the
    session's [lastAccessed] to the current time and reports it, with the
    full [SESSION_TIMEOUT] left before expiry. *)
Theorem get_session_refreshes cfg now sid s st :
  sid <> "" -> sessions st !! sid = Some s -> is_expired cfg now s = false ->
  begin_request cfg now (GetSession (Some sid)) st
    = (Some (json [("userId", JStr (userId s)); ("created", JStr (toISOString (created s)));
                   ("lastAccessed", JStr (toISOString now));
                   ("expiresIn", JNum (SESSION_TIMEOUT cfg))]),
       mkServer (<[sid := set_lastAccessed now s]> (sessions st)) (containerCount st), []).
Proof.
  intros Hn Hs He. cbn [begin_request]. rewrite (validate_session_ok cfg now sid s st Hn Hs He).
  cbn [sessions]. rewrite lookup_insert_eq. cbn [userId created lastAccessed set_lastAccessed].
  by rewrite Z.sub_diag, Z.sub_0_r.
Qed.

Lemma get_session_refreshes_witness :
  begin_request ex_cfg 5 (GetSession (Some "s1")) st_real
    = (Some (json [("userId", JStr "alice"); ("created", JStr (toISOString 0));
                   ("lastAccessed", JStr (toISOString 5)); ("expiresIn", JNum 3600000)]),
       mkServer (<[ "s1" := set_lastAccessed 5 real_s ]> (sessions st_real)) 1, []).
Proof.
  exact (get_session_refreshes ex_cfg 5 "s1" real_s st_real ltac:(discriminate) eq_refl eq_refl).
Defined.

(** Extra X17: on the API-key route [POST /execute-command], a missing or
    empty command answers 400 "Command is required", but only after
    [validateSession] has refreshed the session's [lastAccessed]. *)
Theorem execute_command_empty_refreshes cfg now sid s st command :
  sid <> "" -> sessions st !! sid = Some s -> is_expired cfg now s = false ->
  js_falsy command = true ->
  begin_request cfg now (ExecuteCommand (Some sid) command) st
    = (Some (json_error 400 "Command is required"),
       mkServer (<[sid := set_lastAccessed now s]> (sessions st)) (containerCount st), []).
Proof.
  intros Hn Hs He Hc. cbn [begin_request].
  rewrite (validate_session_ok cfg now sid s st Hn Hs He), Hc. reflexivity.
Qed.

Lemma execute_command_empty_refreshes_witness :
  begin_request ex_cfg 5 (ExecuteCommand (Some "s1") None) st_real
    = (Some (json_error 400 "Command is required"),
       mkServer (<[ "s1" := set_lastAccessed 5 real_s ]> (sessions st_real)) 1, []).
Proof.
  exact (execute_command_empty_refreshes ex_cfg 5 "s1" real_s st_real None
           ltac:(discriminate) eq_refl eq_refl eq_refl).
Defined.

(** Extra X18: [DELETE /session] with the id of a live session answers
    "Session terminated successfully" whether or not the container could be
    stopped and removed: when it could, the session is gone and
    [containerCount] is one less; when not, the session stays, refreshed. *)
Theorem delete_session_route cfg now env sid s st :
  sid <> "" -> sessions st !! sid = Some s -> is_expired cfg now s = false ->
  run_request cfg now env (DeleteSession (Some sid)) st
    = (Some terminated,
       match env_cleanup env sid with
       | Ok _ => mkServer (delete sid (sessions st)) (containerCount st - 1)
       | Err _ => mkServer (<[sid := set_lastAccessed now s]> (sessions st)) (containerCount st)
       end).
Proof.
  intros Hn Hs He. unfold run_request. cbn [begin_request].
  rewrite (validate_session_ok cfg now sid s st Hn Hs He).
  unfold cleanup_spawn. cbn [sessions]. rewrite lookup_insert_eq.
  cbn [resolve_all resolve]. unfold cleanup_finish.
  destruct (env_cleanup env sid); cbn [sessions containerCount]; [| reflexivity].
  by rewrite delete_insert_eq.
Qed.

Lemma delete_session_route_witness :
  run_request ex_cfg 5 env_down (DeleteSession (Some "s1")) st_real
    = (Some terminated, mkServer (<[ "s1" := set_lastAccessed 5 real_s ]> (sessions st_real)) 1).
Proof.
  exact (delete_session_route ex_cfg 5 env_down "s1" real_s st_real
           ltac:(discriminate) eq_refl eq_refl).
Defined.

Lemma in_fst {A} (l : list (string * A)) k : In k l.*1 <-> exists v, In (k, v) l.
Proof.
  induction l as [|[k' v'] l IH]; cbn; [split; [done | intros (? & [])] |].
  rewrite IH. split.
  - intros [->|(v & Hv)]; eauto.
  - intros (v & [[= -> ->]|Hv]); eauto.
Qed.

Lemma existsb_key {A} (l : list (string * A)) k :
  existsb (fun kv => String.eqb kv.1 k) l = true <-> exists v, In (k, v) l.
Proof.
  rewrite existsb_exists. split.
  - intros ([k' v] & Hin & He). apply String.eqb_eq in He. cbn in He. subst. eauto.
  - intros (v & Hin). exists (k, v). split; [done | apply String.eqb_refl].
Qed.

Lemma existsb_eqb_In ks k : existsb (String.eqb k) ks = true <-> In k ks.
Proof.
  rewrite existsb_exists. split.
  - intros (x & Hx & He). apply String.eqb_eq in He. by subst.
  - intros H. exists k. split; [done | apply String.eqb_refl].
Qed.

Lemma filter_filter_andb {A} (f g : A -> bool) l :
  List.filter g (List.filter f l) = List.filter (fun x => f x && g x) l.
Proof.
  induction l as [|x l IH]; cbn; [done |].
  destruct (f x); cbn; [destruct (g x); cbn; [f_equal |] |]; exact IH.
Qed.

Lemma resolve_all_cons cfg env t ts st :
  (resolve_all cfg env (t :: ts) st).2 = (resolve_all cfg env ts (resolve cfg env t st).2).2.
Proof.
  cbn [resolve_all]. destruct (resolve cfg env t st) as [r1 st1]. cbn [snd].
  by destruct (resolve_all cfg env ts st1).
Qed.

Lemma run_request_snd cfg now env req st :
  (run_request cfg now env req st).2
  = (resolve_all cfg env (begin_request cfg now req st).2 (begin_request cfg now req st).1.2).2.
Proof.
  unfold run_request. destruct (begin_request cfg now req st) as [[r0 st1] ts].
  cbn [fst snd]. destruct (resolve_all cfg env ts st1). reflexivity.
Qed.

Lemma cleanup_finish_lookup r k st k0 :
  sessions (cleanup_finish r k st) !! k0
  = if String.eqb k k0 && cleanup_ok r then None else sessions st !! k0.
Proof.
  destruct r; cbn; [| by rewrite andb_false_r]. rewrite andb_true_r.
  destruct (String.eqb_spec k k0) as [->|Hne]; [apply lookup_delete_eq | by apply lookup_delete_ne].
Qed.

Lemma cleanup_finish_count r k st :
  containerCount (cleanup_finish r k st) = containerCount st - (if cleanup_ok r then 1 else 0).
Proof. destruct r; cbn; lia. Qed.

Lemma resolve_all_cleanups cfg env (l : list (string * Session)) st :
  (forall k, sessions (resolve_all cfg env (map (fun kv => TCleanup kv.1) l) st).2 !! k
     = if existsb (fun kv => String.eqb kv.1 k) l && cleanup_ok (env_cleanup env k)
       then None else sessions st !! k) /\
  containerCount (resolve_all cfg env (map (fun kv => TCleanup kv.1) l) st).2
    = containerCount st
      - Z.of_nat (length (List.filter (fun kv => cleanup_ok (env_cleanup env kv.1)) l)).
Proof.
  induction l as [|[k0 v0] l IH] in st |- *.
  - cbn. split; [done | lia].
  - cbn [map]. rewrite resolve_all_cons. cbn [resolve snd fst].
    destruct (IH (cleanup_finish (env_cleanup env k0) k0 st)) as [IHl IHc]. split.
    + intros k. rewrite IHl, cleanup_finish_lookup. cbn [existsb fst].
      destruct (String.eqb_spec k0 k) as [->|Hne].
      * cbn [orb andb]. by destruct (existsb _ l), (cleanup_ok (env_cleanup env k)).
      * reflexivity.
    + rewrite IHc, cleanup_finish_count. cbn [List.filter fst].
      destruct (cleanup_ok (env_cleanup env k0)); cbn [length]; lia.
Qed.

(** Extra X19: a tick of the periodic sweep, its cleanups resolved in turn,
    removes exactly the sessions idle past [SESSION_TIMEOUT] whose container
    was stopped and removed, keeps every other session as it was, and lowers
    [containerCount] by the number of sessions removed. *)
Theorem reaper_removes_expired cfg now env st :
  (forall sid s, sessions (run_request cfg now env ReaperTick st).2 !! sid = Some s <->
     sessions st !! sid = Some s /\
     (is_expired cfg now s = false \/ cleanup_ok (env_cleanup env sid) = false)) /\
  containerCount (run_request cfg now env ReaperTick st).2
    = containerCount st
      - Z.of_nat (length (List.filter
          (fun kv => is_expired cfg now kv.2 && cleanup_ok (env_cleanup env kv.1))
          (map_to_list (sessions st)))).
Proof.
  rewrite run_request_snd. cbn [begin_request fst snd]. unfold reaper_tasks.
  destruct (resolve_all_cleanups cfg env
              (List.filter (fun kv => is_expired cfg now kv.2) (map_to_list (sessions st))) st)
    as [Hl Hc].
  split; [| by rewrite Hc, filter_filter_andb].
  intros sid s. rewrite Hl. destruct (existsb _ _) eqn:Ex.
  - apply existsb_key in Ex as (v & Hv). apply filter_In in Hv as [Hv He]. cbn in He.
    assert (Hm : sessions st !! sid = Some v)
      by apply elem_of_map_to_list, list_elem_of_In, Hv.
    destruct (cleanup_ok (env_cleanup env sid)); cbn [andb].
    + split; [discriminate | intros [Hs [Hx|Hx]]; congruence].
    + split; [intros H; split; [done | by right] | intros [H _]; done].
  - cbn [andb]. split; [| intros [H _]; done]. intros H. split; [done |]. left.
    destruct (is_expired cfg now s) eqn:Ee; [| done]. exfalso.
    assert (E : existsb (fun kv => String.eqb kv.1 sid)
                  (List.filter (fun kv => is_expired cfg now kv.2)
                     (map_to_list (sessions st))) = true).
    { apply existsb_key. exists s. apply filter_In.
      split; [apply list_elem_of_In, elem_of_map_to_list, H | done]. }
    congruence.
Qed.

Lemma shutdown_fold env ks st :
  NoDup ks -> (forall k, In k ks -> is_Some (sessions st !! k)) ->
  (forall k, sessions (fold_left (shutdown_step env) ks st) !! k
     = if existsb (String.eqb k) ks && cleanup_ok (env_cleanup env k)
       then None else sessions st !! k) /\
  containerCount (fold_left (shutdown_step env) ks st)
    = containerCount st
      - Z.of_nat (length (List.filter (fun k => cleanup_ok (env_cleanup env k)) ks)).
Proof.
  induction ks as [|k0 ks IH] in st |- *; intros Hnd Hp.
  - cbn. split; [done | lia].
  - apply NoDup_cons in Hnd as [Hn0 Hnd]. rewrite list_elem_of_In in Hn0.
    cbn [fold_left].
    assert (Hs : shutdown_step env st k0 = cleanup_finish (env_cleanup env k0) k0 st).
    { unfold shutdown_step, cleanup_spawn.
      destruct (Hp k0 (or_introl eq_refl)) as [v Hv]. by rewrite Hv. }
    rewrite Hs.
    destruct (IH (cleanup_finish (env_cleanup env k0) k0 st) Hnd) as [IHl IHc].
    { intros k Hk. rewrite cleanup_finish_lookup.
      assert (Hne : k0 <> k) by (intros ->; done).
      rewrite (proj2 (String.eqb_neq _ _) Hne). cbn [andb]. apply Hp. by right. }
    split.
    + intros k. rewrite IHl, cleanup_finish_lookup. cbn [existsb].
      destruct (String.eqb_spec k k0) as [->|Hne].
      * rewrite String.eqb_refl. cbn [orb].
        assert (E : existsb (String.eqb k0) ks = false).
        { destruct (existsb (String.eqb k0) ks) eqn:E; [| done].
          apply existsb_eqb_In in E. done. }
        rewrite E. cbn [andb]. by destruct (cleanup_ok (env_cleanup env k0)).
      * rewrite (proj2 (String.eqb_neq _ _) (not_eq_sym Hne)). reflexivity.
    + rewrite IHc, cleanup_finish_count. cbn [List.filter].
      destruct (cleanup_ok (env_cleanup env k0)); cbn [length]; lia.
Qed.

(** Extra X20: on [SIGTERM], after the cleanup of every session, the table
    holds exactly the sessions whose container could not be stopped and
    removed, and [containerCount] is lower by the number of successful
    cleanups; when every cleanup succeeds and the counter matched the table,
    the table is empty and [containerCount] is 0. *)
Theorem shutdown_cleans_up env st :
  (forall sid s, sessions (shutdown env st) !! sid = Some s <->
     sessions st !! sid = Some s /\ cleanup_ok (env_cleanup env sid) = false) /\
  containerCount (shutdown env st)
    = containerCount st
      - Z.of_nat (length (List.filter (fun sid => cleanup_ok (env_cleanup env sid))
                            (map_to_list (sessions st)).*1)) /\
  ((forall sid, cleanup_ok (env_cleanup env sid) = true) -> count_inv st ->
   sessions (shutdown env st) = ∅ /\ containerCount (shutdown env st) = 0).
Proof.
  assert (Hp : forall k, In k (map_to_list (sessions st)).*1 -> is_Some (sessions st !! k)).
  { intros k Hk. apply in_fst in Hk as (v & Hv). exists v.
    apply elem_of_map_to_list, list_elem_of_In, Hv. }
  destruct (shutdown_fold env _ st (NoDup_fst_map_to_list _) Hp) as [Hl Hc].
  unfold shutdown.
  assert (Hl' : forall sid s, sessions (fold_left (shutdown_step env)
                  (map_to_list (sessions st)).*1 st) !! sid = Some s <->
                sessions st !! sid = Some s /\ cleanup_ok (env_cleanup env sid) = false).
  { intros sid s. rewrite Hl. destruct (existsb _ _) eqn:Ex.
    - destruct (cleanup_ok (env_cleanup env sid)); cbn [andb].
      + split; [discriminate | intros [_ H]; discriminate].
      + split; [intros H; split; done | intros [H _]; done].
    - cbn [andb]. destruct (sessions st !! sid) as [v|] eqn:Em.
      + exfalso. assert (E : existsb (String.eqb sid) (map_to_list (sessions st)).*1 = true).
        { apply existsb_eqb_In, in_fst. exists v.
          apply list_elem_of_In, elem_of_map_to_list, Em. }
        congruence.
      + split; [discriminate | intros [H _]; discriminate]. }
  split; [exact Hl' | split; [exact Hc |]].
  intros Hall Hinv.
  assert (He : sessions (fold_left (shutdown_step env) (map_to_list (sessions st)).*1 st) = ∅).
  { apply map_empty. intros i.
    destruct (sessions (fold_left (shutdown_step env) (map_to_list (sessions st)).*1 st) !! i)
      as [s|] eqn:E; [| done].
    apply Hl' in E as [_ E]. rewrite Hall in E. discriminate. }
  split; [exact He |]. rewrite Hc.
  assert (Hf : forall l, List.filter (fun sid => cleanup_ok (env_cleanup env sid)) l = l).
  { intros l. induction l as [|x l IH]; cbn; [done | by rewrite Hall, IH]. }
  rewrite Hf, length_fmap, length_map_to_list. unfold count_inv in Hinv. lia.
Qed.

(** Extra X21: once a command on a real session fails because Docker's
    socket is missing, the session is marked as mock, and the next command
    on it from its owner or an admin (within the timeout) goes to the mock
    branch: it records the command, calls no Docker [exec], and leaves only
    the [setTimeout] callback pending, which answers with the mock output
    flagged [isMock], stamped with the time at which the callback runs. *)
Theorem mock_switch_then_mock_answer cfg now' env ws cmd cmd' sid s st msg :
  sessions st !! sid = Some s -> includes msg docker_sock_enoent = true ->
  cmd' <> "" -> sid <> "" -> is_expired cfg now' s = false -> forbidden ws s = false ->
  let st1 := (api_exec_finish sid cmd (ExecThrow msg) st).2 in
  let st2 := mkServer (<[sid := record_command now' ws sid cmd' (set_isMock s)]> (sessions st))
               (containerCount st) in
  begin_request cfg now' (ApiExecuteCommand ws (Some cmd') (Some sid)) st1
    = (None, st2, [TMockReply sid cmd' (set_isMock s)]) /\
  run_request cfg now' env (ApiExecuteCommand ws (Some cmd') (Some sid)) st1
    = (Some (json [("output", JStr (mock_output (env_now env) sid cmd' (set_isMock s)));
                   ("exitCode", JNum 0); ("isMock", JBool true)]), st2).
Proof.
  intros Hs Hm Hc Hn He Hf st1 st2.
  assert (Hb : begin_request cfg now' (ApiExecuteCommand ws (Some cmd') (Some sid)) st1
               = (None, st2, [TMockReply sid cmd' (set_isMock s)])).
  { unfold st1, st2. cbn [api_exec_finish]. rewrite Hm. cbn [snd].
    unfold update_session. rewrite Hs. cbn [begin_request]. unfold api_execute_begin.
    rewrite (js_falsy_some_nonempty cmd' Hc), (js_falsy_some_nonempty sid Hn).
    cbn [default sessions containerCount]. unfold id. rewrite lookup_insert_eq.
    assert (He' : is_expired cfg now' (set_isMock s) = is_expired cfg now' s) by reflexivity.
    assert (Hf' : forbidden ws (set_isMock s) = forbidden ws s) by reflexivity.
    rewrite He', Hf', He, Hf. cbn [isMock set_isMock]. by rewrite insert_insert_eq. }
  split; [exact Hb |]. unfold run_request. rewrite Hb. reflexivity.
Qed.

Lemma mock_switch_then_mock_answer_witness :
  run_request ex_cfg 5 env_up (ApiExecuteCommand alice (Some "pwd") (Some "s1"))
    (api_exec_finish "s1" "ls" (ExecThrow docker_sock_enoent) st_real).2
  = (Some (json [("output", JStr (mock_output (env_now env_up) "s1" "pwd" (set_isMock real_s)));
                 ("exitCode", JNum 0); ("isMock", JBool true)]),
     mkServer (<[ "s1" := record_command 5 alice "s1" "pwd" (set_isMock real_s) ]> (sessions st_real))
       (containerCount st_real)).
Proof.
  exact (proj2 (mock_switch_then_mock_answer ex_cfg 5 env_up alice "ls" "pwd" "s1" real_s st_real
           docker_sock_enoent eq_refl eq_refl ltac:(discriminate) ltac:(discriminate)
           eq_refl eq_refl)).
Defined.

(** Extra X22: a session created through the API-key route
    [POST /create-session] has no [webUser] (it is [undefined]), so every
    non-admin logged-in web user is refused on it: [GET /api/session/:id]
    answers 403 and [DELETE /api/session/:id] answers 403 without starting
    any cleanup. A principal inherited from [Object.prototype] (whose
    [username] is [undefined] too) is not refused: [GET] answers 200 and
    [DELETE] terminates the session and starts its cleanup. *)
Theorem api_key_session_hidden_from_web_users cfg now now' env sid bodyUserId uuid ip st ws cid :
  containerCount st < MAX_CONTAINERS cfg -> env_create env = Ok cid -> isAdmin ws = false ->
  username ws <> None ->
  let st' := (run_request cfg now env (CreateSession sid bodyUserId uuid ip) st).2 in
  api_get_session cfg now' ws sid st' = json_error 403 "You can only view your own sessions" /\
  begin_request cfg now' (ApiDeleteSession ws sid) st'
    = (Some (json_error 403 "You can only terminate your own sessions"), st', []) /\
  status (api_get_session cfg now' (mkWebSession None false) sid st') = 200 /\
  begin_request cfg now' (ApiDeleteSession (mkWebSession None false) sid) st'
    = (Some terminated, st', [TCleanup sid]).
Proof.
  intros Hc Hcid Ha Hu st'. unfold st'. rewrite run_request_snd. cbn [begin_request].
  rewrite (create_check_below cfg st Hc). cbn [fst snd resolve_all resolve].
  unfold legacy_create_finish. rewrite Hcid. cbn [snd].
  unfold api_get_session, forbidden, cleanup_spawn. cbn [sessions]. rewrite lookup_insert_eq.
  cbn [webUser]. rewrite Ha. destruct (username ws) as [u|]; [| done].
  repeat split; reflexivity.
Qed.

Lemma api_key_session_hidden_from_web_users_witness :
  api_get_session ex_cfg 5 alice "s1"
    (run_request ex_cfg 0 env_up (CreateSession "s1" None "u1" "10.0.0.1") init_server).2
  = json_error 403 "You can only view your own sessions".
Proof.
  exact (proj1 (api_key_session_hidden_from_web_users ex_cfg 0 5 env_up "s1" None "u1" "10.0.0.1"
           init_server alice "c1" ltac:(simpl; lia) eq_refl eq_refl ltac:(discriminate))).
Defined.

(** Extra X23: on the API-key routes, [validateSession] refuses a session
    idle past [SESSION_TIMEOUT]: [GET /session] answers 401 "Session
    expired", and the session's cleanup then removes it (one less in
    [containerCount]) if its container is stopped and removed, and leaves
    everything as it was otherwise. *)
Theorem get_session_expired cfg now env sid s st :
  sid <> "" -> sessions st !! sid = Some s -> is_expired cfg now s = true ->
  run_request cfg now env (GetSession (Some sid)) st
    = (Some (json_error 401 "Session expired"), cleanup_finish (env_cleanup env sid) sid st).
Proof.
  intros Hn Hs He. unfold run_request. cbn [begin_request]. unfold validate_session.
  rewrite (js_falsy_some_nonempty sid Hn). cbn [default]. unfold id. rewrite Hs, He.
  unfold cleanup_spawn. rewrite Hs. cbn [resolve_all resolve].
  by destruct (cleanup_finish (env_cleanup env sid) sid st).
Qed.

Lemma get_session_expired_witness :
  run_request ex_cfg late env_up (GetSession (Some "s1")) st_real
    = (Some (json_error 401 "Session expired"), cleanup_finish (Ok tt) "s1" st_real).
Proof.
  exact (get_session_expired ex_cfg late env_up "s1" real_s st_real ltac:(discriminate)
           eq_refl eq_refl).
Defined.
